(** * TeleResearch: the moderation bot, polling variant (TGBot.py) and
      webhook variant (TGBot2.py)

    A shallow embedding of the two programs and the properties of their
    moderation state machine, content classifier, policy store, state store
    and broadcast dispatcher.

    Conventions of the embedding.
    - A Python [str] is a [string]; the model covers ASCII text: the classes
      [\w], [\s], [\d], [str.lower] and [re.IGNORECASE] are taken at their
      restriction to code points below 128, and bytes from 128 on belong to
      no class and have no case.
    - A Python [int] is a [Z].
    - The module-level [data] dictionary is the record [Data]; dictionaries
      keyed by [str(chat_id)] or [str(user_id)] are [gmap string _], the
      [users] dictionary, whose iteration order the broadcast follows, is an
      association list in insertion order.
    - Calls to the Telegram gateway and writes of [data.json] are recorded in
      a trace; whether each of them succeeds is decided by an environment
      that may look at the whole history. *)

From Stdlib Require Import ZArith String Ascii List Bool Lia.
From Stdlib Require Import DecimalString DecimalZ Decimal.
From stdpp Require Import base option list gmap strings.

Local Open Scope string_scope.
Local Open Scope Z_scope.
Local Open Scope list_scope.

(** ** Python string primitives *)

Module Py.

Definition code (c : ascii) : N := N_of_ascii c.

Definition between (lo hi : N) (c : ascii) : bool :=
  ((lo <=? code c) && (code c <=? hi))%N.

Definition is_upper (c : ascii) : bool := between 65 90 c.
Definition is_lower (c : ascii) : bool := between 97 122 c.
Definition is_digit (c : ascii) : bool := between 48 57 c.

(** [\w]: letters, digits and the underscore. *)
Definition is_word (c : ascii) : bool :=
  is_upper c || is_lower c || is_digit c || (code c =? 95)%N.

(** [\s] and [str.isspace]: tab, line feed, vertical tab, form feed,
    carriage return, the four separators 28 to 31, and the space. *)
Definition is_space (c : ascii) : bool :=
  between 9 13 c || between 28 31 c || (code c =? 32)%N.

Definition lower_char (c : ascii) : ascii :=
  if is_upper c then ascii_of_N (code c + 32) else c.

(** [s.lower()] *)
Fixpoint lower (s : string) : string :=
  match s with
  | EmptyString => EmptyString
  | String c s' => String (lower_char c) (lower s')
  end.

(** [s.startswith(p)] *)
Fixpoint startswith (s p : string) {struct p} : bool :=
  match p, s with
  | EmptyString, _ => true
  | String a p', String b s' => Ascii.eqb a b && startswith s' p'
  | String _ _, EmptyString => false
  end.

(** [w in s] for strings: [w] occurs in [s] as a contiguous substring. *)
Fixpoint contains (s w : string) : bool :=
  startswith s w ||
  match s with
  | EmptyString => false
  | String _ s' => contains s' w
  end.

(** [not s]: the empty string is falsy. *)
Definition falsy (s : string) : bool :=
  match s with EmptyString => true | _ => false end.

Fixpoint all_chars (p : ascii -> bool) (s : string) : bool :=
  match s with
  | EmptyString => true
  | String c s' => p c && all_chars p s'
  end.

(** [s.isdigit()]: non-empty and made of digits only.  The strings of this
    development are ASCII, so the digits are [0] to [9]; Python's
    [str.isdigit] also accepts other Unicode digits, and on some of those
    (a superscript two, say) [int] raises [ValueError]. *)
Definition isdigit (s : string) : bool :=
  negb (falsy s) && all_chars is_digit s.

(** [s.split("=", 1)[1]], for a string that contains ["="]: what follows
    the first equals sign.  The callers test [startswith("key=")] first,
    so the sign is there; without one Python raises [IndexError], here
    [None]. *)
Fixpoint after_eq (s : string) : option string :=
  match s with
  | EmptyString => None
  | String c s' => if Ascii.eqb c "=" then Some s' else after_eq s'
  end.

Fixpoint lstrip (s : string) : string :=
  match s with
  | String c s' => if is_space c then lstrip s' else s
  | EmptyString => EmptyString
  end.

Fixpoint rstrip (s : string) : string :=
  match s with
  | EmptyString => EmptyString
  | String c s' =>
      match rstrip s' with
      | EmptyString => if is_space c then EmptyString else String c EmptyString
      | t => String c t
      end
  end.

(** [s.strip()] *)
Definition strip (s : string) : string := rstrip (lstrip s).

(** [str(n)] for an integer. *)
Definition str (n : Z) : string := NilZero.string_of_int (Z.to_int n).

(** [int(s)] on the strings the programs pass to it: the canonical decimal
    form that [str] writes, and strings accepted by [isdigit].  ([int] in
    Python also accepts a plus sign, surrounding blanks and underscores;
    no such string reaches it from [str] or past [isdigit].) *)
Definition int (s : string) : option Z :=
  Z.of_int <$> NilZero.int_of_string s.

End Py.

(** ** Regular expressions, as Python's [re] module runs them

    A backtracking matcher with ordered choice and greedy repetition: the
    first alternative that leads to an overall match wins, a repetition takes
    as many rounds as it can and gives them back one at a time.  Only the
    constructs the programs' patterns use are modelled. *)

Module Re.

Inductive regex : Type :=
| Eps                                        (* the empty pattern *)
| Chr (p : ascii -> bool)                    (* one character in a class *)
| Seq (r1 r2 : regex)                        (* r1 r2 *)
| Alt (r1 r2 : regex)                        (* r1|r2 *)
| Plus (p : ascii -> bool)                   (* [class]+ *)
| Rep (lo extra : nat) (r : regex)           (* r{lo,lo+extra} *)
| Bound.                                     (* \b *)

(** [\b]: exactly one side of the position is a word character; the ends
    of the text count as non-word. *)
Definition word_before (prev : option ascii) : bool :=
  match prev with Some c => Py.is_word c | None => false end.

Definition word_after (s : string) : bool :=
  match s with String c _ => Py.is_word c | EmptyString => false end.

Definition at_boundary (prev : option ascii) (s : string) : bool :=
  xorb (word_before prev) (word_after s).

Section Matcher.
Context {A : Type}.

(** The continuation receives the number of characters consumed so far,
    the character before the position reached and the rest of the text. *)
Definition cont : Type := nat -> option ascii -> string -> option A.

Definition orelse (x y : option A) : option A :=
  match x with Some a => Some a | None => y end.

Fixpoint plus_loop (p : ascii -> bool) (pos : nat) (s : string) (k : cont)
  : option A :=
  match s with
  | String c s' =>
      if p c then orelse (plus_loop p (S pos) s' k) (k (S pos) (Some c) s')
      else None
  | EmptyString => None
  end.

(** [body{0,m}], greedy: one more round if it leads to a match, else on. *)
Fixpoint rep_more (body : nat -> option ascii -> string -> cont -> option A)
    (m : nat) (k : cont) (pos : nat) (prev : option ascii) (s : string)
  : option A :=
  match m with
  | O => k pos prev s
  | S m' => orelse (body pos prev s (rep_more body m' k)) (k pos prev s)
  end.

(** [body{n}] *)
Fixpoint rep_exact (body : nat -> option ascii -> string -> cont -> option A)
    (n : nat) (k : cont) (pos : nat) (prev : option ascii) (s : string)
  : option A :=
  match n with
  | O => k pos prev s
  | S n' => body pos prev s (rep_exact body n' k)
  end.

Fixpoint rmatch (r : regex) (pos : nat) (prev : option ascii) (s : string)
    (k : cont) : option A :=
  match r with
  | Eps => k pos prev s
  | Chr p =>
      match s with
      | String c s' => if p c then k (S pos) (Some c) s' else None
      | EmptyString => None
      end
  | Seq r1 r2 =>
      rmatch r1 pos prev s (fun pos' prev' s' => rmatch r2 pos' prev' s' k)
  | Alt r1 r2 => orelse (rmatch r1 pos prev s k) (rmatch r2 pos prev s k)
  | Plus p => plus_loop p pos s k
  | Rep lo extra r1 =>
      rep_exact (rmatch r1) lo (rep_more (rmatch r1) extra k) pos prev s
  | Bound => if at_boundary prev s then k pos prev s else None
  end.
End Matcher.

(** A match starting exactly at the current position. *)
Definition match_here (r : regex) (prev : option ascii) (s : string) : bool :=
  match rmatch r 0 prev s (fun _ _ _ => Some tt) with
  | Some _ => true
  | None => false
  end.

(** [pattern.search(text)] as a truth value: some position starts a match. *)
Fixpoint search_from (r : regex) (prev : option ascii) (s : string) : bool :=
  match_here r prev s ||
  match s with
  | String c s' => search_from r (Some c) s'
  | EmptyString => false
  end.

Definition search (r : regex) (s : string) : bool := search_from r None s.

(** Number of characters of the leftmost-first match at the current
    position, when there is one. *)
Definition match_len (r : regex) (prev : option ascii) (s : string)
  : option nat :=
  rmatch r 0 prev s (fun pos _ _ => Some pos).

(** [re.sub(pattern, repl, text)] for a pattern that matches no empty
    string (true of every pattern the programs substitute): scan from the
    left, replace each match and resume after it.  [skip] counts the
    characters of the current match still to be dropped. *)
Fixpoint sub_from (r : regex) (repl : string) (skip : nat)
    (prev : option ascii) (s : string) : string :=
  match s with
  | EmptyString => EmptyString
  | String c s' =>
      match skip with
      | S n => sub_from r repl n (Some c) s'
      | O =>
          match match_len r prev s with
          | Some (S n) => repl +:+ sub_from r repl n (Some c) s'
          | _ => String c (sub_from r repl O (Some c) s')
          end
      end
  end.

Definition sub (r : regex) (repl : string) (s : string) : string :=
  sub_from r repl O None s.

(** *** Pattern syntax *)

(** A literal character; under [re.IGNORECASE] letters match both cases. *)
Definition chr (c : ascii) : regex := Chr (Ascii.eqb c).
Definition ichr (c : ascii) : regex :=
  Chr (fun x => Ascii.eqb (Py.lower_char x) (Py.lower_char c)).

Fixpoint lit (s : string) : regex :=
  match s with
  | EmptyString => Eps
  | String c EmptyString => chr c
  | String c s' => Seq (chr c) (lit s')
  end.

Fixpoint ilit (s : string) : regex :=
  match s with
  | EmptyString => Eps
  | String c EmptyString => ichr c
  | String c s' => Seq (ichr c) (ilit s')
  end.

Fixpoint alts (rs : list regex) : regex :=
  match rs with
  | [] => Chr (fun _ => false)
  | [r] => r
  | r :: rs' => Alt r (alts rs')
  end.

Fixpoint seqs (rs : list regex) : regex :=
  match rs with
  | [] => Eps
  | [r] => r
  | r :: rs' => Seq r (seqs rs')
  end.

Definition opt (r : regex) : regex := Rep 0 1 r.

(** Membership in a bracketed set of literal characters. *)
Fixpoint one_of (set : string) (c : ascii) : bool :=
  match set with
  | EmptyString => false
  | String a set' => Ascii.eqb a c || one_of set' c
  end.


End Re.

(** ** The content classifier of the webhook variant (TGBot2.py) *)

Module Classifier2.
Import Re.

(** [[\w\-.~:/?#\[\]@!$&'()*+,;=%]] *)
Definition url_char (c : ascii) : bool :=
  Py.is_word c || one_of "-.~:/?#[]@!$&'()*+,;=%" c.

(** [[\w\-]] *)
Definition host_char (c : ascii) : bool := Py.is_word c || one_of "-" c.

(** [[\w\-\./?=&%]] *)
Definition path_char (c : ascii) : bool :=
  Py.is_word c || one_of "-./?=&%" c.

(** [(com|net|org|in|io|info|biz|co|me|xyz|tk)] *)
Definition TLD : regex :=
  alts (map ilit
    ["com"; "net"; "org"; "in"; "io"; "info"; "biz"; "co"; "me"; "xyz"; "tk"]).

(** [URL_RE]: a scheme URL, a [www.] host, or a bare domain ending in one
    of the listed top-level domains; compiled with [re.IGNORECASE]. *)
Definition URL_RE : regex :=
  alts
    [ seqs [ilit "http"; opt (ichr "s"); lit "://"; Plus url_char];
      seqs [ilit "www"; chr "."; Plus host_char; chr "."; Plus path_char];
      seqs [Plus host_char; chr "."; TLD; Bound] ].

(** [IP_RE = \b(?:\d{1,3}\.){3}\d{1,3}\b] *)
Definition IP_RE : regex :=
  seqs [ Bound;
         Rep 3 0 (Seq (Rep 1 2 (Chr Py.is_digit)) (chr "."));
         Rep 1 2 (Chr Py.is_digit);
         Bound ].

Definition SHORTENER_DOMAINS : list string :=
  ["bit.ly"; "t.co"; "tinyurl.com"; "goo.gl"; "is.gd"; "ow.ly"].

(** [SHORTENER_RE]: the escaped domains between two [\b], ignoring case. *)
Definition SHORTENER_RE : regex :=
  seqs [Bound; alts (map ilit SHORTENER_DOMAINS); Bound].

(** [\[\.\]|\{\.\}|\(dot\)|\sdot\s], ignoring case. *)
Definition DOT_FORMS : regex :=
  alts [ lit "[.]"; lit "{.}"; ilit "(dot)";
         seqs [Chr Py.is_space; ilit "dot"; Chr Py.is_space] ].

(** [\[at\]|\(at\)|\sat\s], ignoring case. *)
Definition AT_FORMS : regex :=
  alts [ ilit "[at]"; ilit "(at)";
         seqs [Chr Py.is_space; ilit "at"; Chr Py.is_space] ].

Definition normalize_obfuscated (text : string) : string :=
  let t := text in
  let t := sub DOT_FORMS "." t in
  let t := sub AT_FORMS "@" t in
  t.

Definition text_contains_link (text : string) : bool :=
  if Py.falsy text then false
  else
    let t := normalize_obfuscated text in
    if search URL_RE t then true
    else if search IP_RE t then true
    else if search SHORTENER_RE t then true
    else false.

(** [banned_words] is a Python set; the list gives the order in which this
    run iterates over it. *)
Fixpoint first_banned (lowered : string) (banned_words : list string)
  : option string :=
  match banned_words with
  | [] => None
  | w :: rest =>
      if negb (Py.falsy w) && Py.contains lowered w then Some w
      else first_banned lowered rest
  end.

Definition text_contains_banned_word (text : string)
    (banned_words : list string) : option string :=
  if Py.falsy text then None
  else
    let lowered := Py.lower text in
    first_banned lowered banned_words.

End Classifier2.

(** ** The state store, the durable file and the outside world *)

(** A value of [data["users"]]. *)
Record UserInfo : Type := mkUserInfo {
  first_name : string;
  last_name : string;
  username : string;
  chats : list Z
}.

(** A value of [data["chats_config"]], as stored: every key may be absent. *)
Record StoredConf : Type := mkStoredConf {
  sc_delete_links : option bool;
  sc_warn_limit : option Z;
  sc_ban_on_limit : option bool;
  sc_banned_words : option (list string)
}.

Record FileInfo : Type := mkFileInfo {
  path : string;
  desc : string
}.

(** The module-level [data] dictionary with all its keys present.  The
    polling variant has no ["chats_config"] key: there the last field stays
    empty and is never read. *)
Record Data : Type := mkData {
  users : list (string * UserInfo);
  warnings : gmap string (gmap string Z);
  banned : gmap string (list Z);
  files : gmap string FileInfo;
  channels : list Z;
  chats_config : gmap string StoredConf
}.

(** A JSON object read from [data.json]: any of the keys may be missing. *)
Record Obj : Type := mkObj {
  o_users : option (list (string * UserInfo));
  o_warnings : option (gmap string (gmap string Z));
  o_banned : option (gmap string (list Z));
  o_files : option (gmap string FileInfo);
  o_channels : option (list Z);
  o_chats_config : option (gmap string StoredConf)
}.

(** What is on disk under [DATA_FILE]. *)
Inductive FileState : Type :=
| Missing                 (* os.path.exists is false *)
| Unreadable              (* the file exists, opening or reading it raises *)
| Corrupt                 (* the file exists, json.load raises *)
| Stored (o : Obj).       (* the file holds a JSON object *)

(** How [open(DATA_FILE, "w")] followed by [json.dump] ends. *)
Inductive WriteOutcome : Type :=
| Written                 (* the file now holds the dumped object *)
| OpenFailed              (* open raised, the file is as before *)
| DumpFailed.             (* the file was truncated, then writing raised *)

(** The effective configuration of a chat. *)
Record Conf : Type := mkConf {
  delete_links : bool;
  warn_limit : Z;
  ban_on_limit : bool;
  banned_words : gset string
}.

(** Texts sent through the gateway, by what they say. *)
Inductive Body : Type :=
| Text (s : string)
| WarningNotice (user count limit : Z)
| BannedNotice (user : Z)
| BroadcastReport (sent failed : Z)
| NotAllowed
| UsageHint
| UserUnbanned
| FailedNotice
| ConfigUpdated (c : StoredConf).

(** Requests to the Telegram gateway. *)
Inductive Call : Type :=
| DeleteMessage (chat msg : Z)
| SendMessage (rcpt : Z) (body : Body)
| ForwardMessage (rcpt from_chat msg : Z)
| BanChatMember (chat user : Z)
| UnbanChatMember (chat user : Z)
| ReplyText (chat : Z) (body : Body).

Inductive Event : Type :=
| Called (c : Call) (ok : bool)       (* a gateway request and whether it returned *)
| Wrote (o : WriteOutcome).           (* an attempt to write the data file *)

(** The environment decides, from the history so far, whether a gateway
    request returns or raises and how a write of the data file ends. *)
Record Env : Type := mkEnv {
  gateway : list Event -> Call -> bool;
  disk_write : list Event -> WriteOutcome;
  ADMIN_IDS : list Z
}.

Record World : Type := mkWorld {
  data : Data;
  disk : FileState;
  trace : list Event
}.

Inductive Exn : Type :=
| OSError
| JSONDecodeError
| ValueError
| TelegramError.

Inductive result (A : Type) : Type :=
| Ok (a : A)
| Raise (e : Exn).
Arguments Ok {A} a.
Arguments Raise {A} e.

(** *** What arrives from Telegram *)

Record User : Type := mkUser {
  user_id : Z;
  user_first_name : option string;
  user_last_name : option string;
  user_username : option string
}.

Inductive ChatType : Type := private | group | supergroup | channel.

Record Chat : Type := mkChat {
  chat_id : Z;
  chat_type : ChatType
}.

Record Replied : Type := mkReplied {
  replied_id : Z;
  replied_from : User
}.

Record Message : Type := mkMessage {
  message_id : Z;
  text : option string;
  caption : option string;
  reply_to_message : option Replied
}.

(** An update that is not a command. *)
Record Update : Type := mkUpdate {
  effective_message : option Message;
  effective_user : option User;
  effective_chat : option Chat
}.

(** A command with its sender, chat, message and [context.args]. *)
Record Command : Type := mkCommand {
  cmd_user : User;
  cmd_chat : Chat;
  cmd_message : Message;
  cmd_args : list string
}.

(** [x or ""] *)
Definition or_empty (x : option string) : string :=
  match x with Some s => s | None => "" end.

(** [json.dump]: every key of [data] is written. *)
Definition dump (with_config : bool) (d : Data) : Obj :=
  {| o_users := Some (users d);
     o_warnings := Some (warnings d);
     o_banned := Some (banned d);
     o_files := Some (files d);
     o_channels := Some (channels d);
     o_chats_config := if with_config then Some (chats_config d) else None |}.

Definition after_write (o : WriteOutcome) (obj : Obj) (old : FileState)
  : FileState :=
  match o with
  | Written => Stored obj
  | OpenFailed => old
  | DumpFailed => Corrupt
  end.

(** One gateway request: the outcome, and the trace with the request in it. *)
Definition request (E : Env) (c : Call) (tr : list Event)
  : bool * list Event :=
  let ok := gateway E tr c in (ok, tr ++ [Called c ok]).

(** Association lists in insertion order, for [data["users"]]. *)
Fixpoint dict_get {V : Type} (k : string) (l : list (string * V)) : option V :=
  match l with
  | [] => None
  | (k', v) :: l' => if String.eqb k k' then Some v else dict_get k l'
  end.

Fixpoint dict_set {V : Type} (k : string) (v : V) (l : list (string * V))
  : list (string * V) :=
  match l with
  | [] => [(k, v)]
  | (k', v') :: l' =>
      if String.eqb k k' then (k, v) :: l' else (k', v') :: dict_set k v l'
  end.

(** [x in l] for a list of integers. *)
Definition mem (x : Z) (l : list Z) : bool := existsb (Z.eqb x) l.

(** [l.remove(x)]: drop the first occurrence. *)
Fixpoint remove_first (x : Z) (l : list Z) : list Z :=
  match l with
  | [] => []
  | y :: l' => if Z.eqb x y then l' else y :: remove_first x l'
  end.

(** Functional record update for [Data] and [World]. *)
Definition with_users (us : list (string * UserInfo)) (d : Data) : Data :=
  mkData us (warnings d) (banned d) (files d) (channels d) (chats_config d).
Definition with_warnings (ws : gmap string (gmap string Z)) (d : Data) : Data :=
  mkData (users d) ws (banned d) (files d) (channels d) (chats_config d).
Definition with_banned (bs : gmap string (list Z)) (d : Data) : Data :=
  mkData (users d) (warnings d) bs (files d) (channels d) (chats_config d).
Definition with_chats_config (cs : gmap string StoredConf) (d : Data) : Data :=
  mkData (users d) (warnings d) (banned d) (files d) (channels d) cs.
Definition with_data (d : Data) (w : World) : World :=
  mkWorld d (disk w) (trace w).
Definition with_trace (tr : list Event) (w : World) : World :=
  mkWorld (data w) (disk w) tr.

(** A gateway request made from a handler. *)
Definition call (E : Env) (c : Call) (w : World) : bool * World :=
  let (ok, tr) := request E c (trace w) in (ok, with_trace tr w).

(** [" ".join(args)] *)
Fixpoint join_space (args : list string) : string :=
  match args with
  | [] => ""
  | [a] => a
  | a :: rest => a +:+ " " +:+ join_space rest
  end.

Definition is_group (c : Chat) : bool :=
  match chat_type c with group | supergroup => true | _ => false end.

Definition is_private (c : Chat) : bool :=
  match chat_type c with private => true | _ => false end.

Definition is_some {A : Type} (x : option A) : bool :=
  match x with Some _ => true | None => false end.

(** The fan-out loop shared by the broadcast handlers:
    [for r in rcpts: try: await send(r); sent += 1 except Exception: failed += 1].
    A recipient is [None] when computing it raised inside the [try] (an
    [int(uid)] that fails): the failure is counted and no request is made. *)
Fixpoint send_loop (E : Env) (mk : Z -> Call) (rcpts : list (option Z))
    (st : Z * Z * list Event) : Z * Z * list Event :=
  match rcpts with
  | [] => st
  | r :: rest =>
      let '(sent, failed, tr) := st in
      match r with
      | Some rid =>
          let (ok, tr') := request E (mk rid) tr in
          if ok then send_loop E mk rest (sent + 1, failed, tr')
          else send_loop E mk rest (sent, failed + 1, tr')
      | None => send_loop E mk rest (sent, failed + 1, tr)
      end
  end.

(** ** The webhook variant: TGBot2.py *)

Module TGBot2.
Import Classifier2.

(** [GLOBAL_CONFIG] *)
Definition warn_limit_default : Z := 3.
Definition delete_links_default : bool := true.
Definition ban_on_limit_default : bool := true.

Definition GLOBAL_BANNED_WORDS : gset string :=
  {[ "badword1"; "badword2"; "somevulgarword" ]}.

Definition DEFAULT_DATA : Data :=
  {| users := []; warnings := ∅; banned := ∅; files := ∅;
     channels := []; chats_config := ∅ |}.

(** [save_data(obj)]: a failed write is logged and swallowed. *)
Definition save_data (E : Env) (obj : Data) (fs : FileState)
    (tr : list Event) : FileState * list Event :=
  let o := disk_write E tr in
  (after_write o (dump true obj) fs, tr ++ [Wrote o]).

(** [for k, v in DEFAULT_DATA.items(): if k not in obj: obj[k] = v] *)
Definition fill_defaults (o : Obj) : Data :=
  {| users := default (users DEFAULT_DATA) (o_users o);
     warnings := default (warnings DEFAULT_DATA) (o_warnings o);
     banned := default (banned DEFAULT_DATA) (o_banned o);
     files := default (files DEFAULT_DATA) (o_files o);
     channels := default (channels DEFAULT_DATA) (o_channels o);
     chats_config := default (chats_config DEFAULT_DATA) (o_chats_config o) |}.

(** [load_data()]: runs once, at import; the result becomes [data]. *)
Definition load_data (E : Env) (fs : FileState) (tr : list Event) : World :=
  match fs with
  | Missing =>
      let (fs', tr') := save_data E DEFAULT_DATA fs tr in
      {| data := DEFAULT_DATA; disk := fs'; trace := tr' |}
  | Unreadable | Corrupt =>
      (* except Exception: ... return DEFAULT_DATA.copy() *)
      {| data := DEFAULT_DATA; disk := fs; trace := tr |}
  | Stored o =>
      {| data := fill_defaults o; disk := fs; trace := tr |}
  end.

(** [save_data(data)] *)
Definition persist (E : Env) (w : World) : World :=
  let (fs', tr') := save_data E (data w) (disk w) (trace w) in
  {| data := data w; disk := fs'; trace := tr' |}.

Definition is_admin (E : Env) (uid : Z) : bool := mem uid (ADMIN_IDS E).

Definition ensure_user_registered (E : Env) (user : User)
    (chat : option Z) (w : World) : World :=
  let uid := Py.str (user_id user) in
  let w :=
    match dict_get uid (users (data w)) with
    | Some _ => w
    | None =>
        let info := {| first_name := or_empty (user_first_name user);
                       last_name := or_empty (user_last_name user);
                       username := or_empty (user_username user);
                       chats := [] |} in
        persist E
          (with_data (with_users (dict_set uid info (users (data w))) (data w)) w)
    end in
  match chat, dict_get uid (users (data w)) with
  | Some cid, Some info =>
      if mem cid (chats info) then w
      else
        let info' := {| first_name := first_name info;
                        last_name := last_name info;
                        username := username info;
                        chats := chats info ++ [cid] |} in
        persist E
          (with_data (with_users (dict_set uid info' (users (data w))) (data w)) w)
  | _, _ => w
  end.

Definition no_conf : StoredConf :=
  {| sc_delete_links := None; sc_warn_limit := None;
     sc_ban_on_limit := None; sc_banned_words := None |}.

Definition get_chat_config (d : Data) (chat : Z) : Conf :=
  let key := Py.str chat in
  let conf := default no_conf (chats_config d !! key) in
  {| delete_links := default delete_links_default (sc_delete_links conf);
     warn_limit := default warn_limit_default (sc_warn_limit conf);
     ban_on_limit := default ban_on_limit_default (sc_ban_on_limit conf);
     banned_words :=
       list_to_set (default [] (sc_banned_words conf)) ∪ GLOBAL_BANNED_WORDS |}.

(** [set_chat_config(chat_id, conf)], called with the banned words already
    turned into a list. *)
Definition set_chat_config (E : Env) (chat : Z) (conf : StoredConf)
    (w : World) : World :=
  let key := Py.str chat in
  persist E
    (with_data (with_chats_config (<[key := conf]> (chats_config (data w))) (data w)) w).

(** The count that [data["warnings"]] holds for a pair; 0 when absent. *)
Definition warning_count (d : Data) (chat user : Z) : Z :=
  default 0 (default ∅ (warnings d !! Py.str chat) !! Py.str user).

Definition increment_warning (E : Env) (chat user : Z) (w : World)
  : Z * World :=
  let ckey := Py.str chat in
  let ukey := Py.str user in
  let per_chat := default ∅ (warnings (data w) !! ckey) in
  let n := default 0 (per_chat !! ukey) + 1 in
  let ws := <[ckey := <[ukey := n]> per_chat]> (warnings (data w)) in
  (n, persist E (with_data (with_warnings ws (data w)) w)).

Definition reset_warnings (E : Env) (chat user : Z) (w : World) : World :=
  let ckey := Py.str chat in
  let ukey := Py.str user in
  match warnings (data w) !! ckey with
  | Some per_chat =>
      match per_chat !! ukey with
      | Some _ =>
          let ws := <[ckey := <[ukey := 0]> per_chat]> (warnings (data w)) in
          persist E (with_data (with_warnings ws (data w)) w)
      | None => w
      end
  | None => w
  end.

Definition ban_user_record (E : Env) (chat user : Z) (w : World) : World :=
  let ckey := Py.str chat in
  let l := default [] (banned (data w) !! ckey) in
  (* setdefault(ckey, []) *)
  let w := with_data (with_banned (<[ckey := l]> (banned (data w))) (data w)) w in
  if mem user l then w
  else
    persist E
      (with_data (with_banned (<[ckey := l ++ [user]]> (banned (data w))) (data w)) w).

Definition is_user_banned (d : Data) (chat user : Z) : bool :=
  mem user (default [] (banned d !! Py.str chat)).

(** *** Command handlers

    A reply that is not inside a [try] ends the handler when it raises;
    every such reply below is the last statement its handler runs, so the
    raise shows as the failed reply that ends the trace. *)

Definition cmd_broadcast (E : Env) (c : Command) (w : World) : World :=
  let chat := chat_id (cmd_chat c) in
  if negb (is_admin E (user_id (cmd_user c))) then
    snd (call E (ReplyText chat NotAllowed) w)
  else
    let mk : Z -> Call :=
      match reply_to_message (cmd_message c), cmd_args c with
      | Some forward_msg, [] =>
          (* forward message to users and channels *)
          fun rid => ForwardMessage rid chat (replied_id forward_msg)
      | _, _ =>
          let text := join_space (cmd_args c) in
          fun rid => SendMessage rid (Text text)
      end in
    let recipients := map fst (users (data w)) in
    let st := send_loop E mk (map Py.int recipients) (0, 0, trace w) in
    let st := send_loop E mk (map Some (channels (data w))) st in
    let '(sent, failed, tr) := st in
    snd (call E (ReplyText chat (BroadcastReport sent failed)) (with_trace tr w)).

Definition cmd_unban (E : Env) (c : Command) (w : World) : World :=
  let chat := chat_id (cmd_chat c) in
  if negb (is_admin E (user_id (cmd_user c))) then
    snd (call E (ReplyText chat NotAllowed) w)
  else
    match cmd_args c with
    | a :: _ =>
        if Py.isdigit a then
          match Py.int a with
          | Some target =>
              let (ok, w) := call E (UnbanChatMember chat target) w in
              if ok then
                let (ok', w) := call E (ReplyText chat UserUnbanned) w in
                if ok' then w
                else snd (call E (ReplyText chat FailedNotice) w)
              else snd (call E (ReplyText chat FailedNotice) w)
          | None => w
          end
        else snd (call E (ReplyText chat UsageHint) w)
    | [] => snd (call E (ReplyText chat UsageHint) w)
    end.

(** [v.lower() in ("1", "true", "yes", "on")] *)
Definition switch_on (v : string) : bool :=
  let l := Py.lower v in
  String.eqb l "1" || String.eqb l "true" || String.eqb l "yes"
  || String.eqb l "on".

(** [token.split("=", 1)[1]] *)
Definition value_of (token : string) : string :=
  default "" (Py.after_eq token).

(** One round of the loop over [args] in [cmd_setconfig].  [int] is applied
    only to a value that passed [isdigit]; on the ASCII strings of this
    development it then always gives a number, so the [None] branch below
    is never taken (in Python a digit outside ASCII can make [int] raise
    there, which ends the handler). *)
Definition apply_token (conf : Conf) (token : string) : Conf :=
  if Py.startswith token "delete_links=" then
    mkConf (switch_on (value_of token)) (warn_limit conf)
           (ban_on_limit conf) (banned_words conf)
  else if Py.startswith token "warn_limit=" && Py.isdigit (value_of token) then
    match Py.int (value_of token) with
    | Some n =>
        mkConf (delete_links conf) n (ban_on_limit conf) (banned_words conf)
    | None => conf
    end
  else if Py.startswith token "ban_on_limit=" then
    mkConf (delete_links conf) (warn_limit conf)
           (switch_on (value_of token)) (banned_words conf)
  else if Py.startswith token "add_banned=" then
    let word := Py.lower (Py.strip (value_of token)) in
    mkConf (delete_links conf) (warn_limit conf) (ban_on_limit conf)
           ({[ word ]} ∪ banned_words conf)
  else if Py.startswith token "remove_banned=" then
    let word := Py.lower (Py.strip (value_of token)) in
    mkConf (delete_links conf) (warn_limit conf) (ban_on_limit conf)
           (banned_words conf ∖ {[ word ]})
  else conf.

(** The dictionary handed to [set_chat_config]: every key present, the
    banned words as a list. *)
Definition store_conf (conf : Conf) : StoredConf :=
  {| sc_delete_links := Some (delete_links conf);
     sc_warn_limit := Some (warn_limit conf);
     sc_ban_on_limit := Some (ban_on_limit conf);
     sc_banned_words := Some (elements (banned_words conf)) |}.

Definition cmd_setconfig (E : Env) (c : Command) (w : World) : World :=
  let chat := chat_id (cmd_chat c) in
  if negb (is_admin E (user_id (cmd_user c))) then
    snd (call E (ReplyText chat NotAllowed) w)
  else if is_private (cmd_chat c) then
    snd (call E (ReplyText chat UsageHint) w)
  else
    match cmd_args c with
    | [] => snd (call E (ReplyText chat UsageHint) w)
    | args =>
        let conf := get_chat_config (data w) chat in
        let conf := fold_left apply_token args conf in
        let stored := store_conf conf in
        let w := set_chat_config E chat stored w in
        snd (call E (ReplyText chat (ConfigUpdated stored)) w)
    end.

(** *** The moderation handler *)

Definition message_handler (E : Env) (u : Update) (w : World) : World :=
  match effective_message u, effective_user u, effective_chat u with
  | Some msg, Some user, Some chat =>
      let w := ensure_user_registered E user (Some (chat_id chat)) w in
      if is_group chat then
        let text := or_empty (text msg) +:+ " " +:+ or_empty (caption msg) in
        let conf := get_chat_config (data w) (chat_id chat) in
        let link_present := text_contains_link text in
        let banned_word :=
          text_contains_banned_word text (elements (banned_words conf)) in
        if delete_links conf && (link_present || is_some banned_word) then
          let (_, w) := call E (DeleteMessage (chat_id chat) (message_id msg)) w in
          let (new_count, w) :=
            increment_warning E (chat_id chat) (user_id user) w in
          let (_, w) :=
            call E (SendMessage (chat_id chat)
                      (WarningNotice (user_id user) new_count (warn_limit conf))) w in
          if (warn_limit conf <=? new_count) && ban_on_limit conf then
            let (ok, w) := call E (BanChatMember (chat_id chat) (user_id user)) w in
            if ok then
              let w := ban_user_record E (chat_id chat) (user_id user) w in
              snd (call E (SendMessage (chat_id chat) (BannedNotice (user_id user))) w)
            else w
          else w
        else w
      else w
  | _, _, _ => w
  end.

(** *** Manual moderation commands *)

(** [user.full_name]: the first name, then the last name when there is one. *)
Definition full_name (u : User) : string :=
  match user_last_name u with
  | Some l => if Py.falsy l then or_empty (user_first_name u)
              else or_empty (user_first_name u) +:+ " " +:+ l
  | None => or_empty (user_first_name u)
  end.

(** [/warn], sent as a reply to the message of the user to warn. *)
Definition cmd_warn (E : Env) (c : Command) (w : World) : World :=
  let chat := chat_id (cmd_chat c) in
  if negb (is_admin E (user_id (cmd_user c))) then
    snd (call E (ReplyText chat NotAllowed) w)
  else
    match reply_to_message (cmd_message c) with
    | None => snd (call E (ReplyText chat UsageHint) w)
    | Some replied =>
        let target := replied_from replied in
        let (new, w) := increment_warning E chat (user_id target) w in
        let (ok, w) :=
          call E (ReplyText chat
                    (Text ("Warned " +:+ full_name target +:+ ". Count: "
                           +:+ Py.str new))) w in
        if negb ok then w
        else
          let conf := get_chat_config (data w) chat in
          if (warn_limit conf <=? new) && ban_on_limit conf then
            let (ok, w) := call E (BanChatMember chat (user_id target)) w in
            if ok then
              let w := ban_user_record E chat (user_id target) w in
              let (ok', w) := call E (ReplyText chat (BannedNotice (user_id target))) w in
              if ok' then w else snd (call E (ReplyText chat FailedNotice) w)
            else snd (call E (ReplyText chat FailedNotice) w)
          else w
    end.

(** The target of [/ban]: the author of the replied message, else a numeric
    first argument. *)
Definition ban_target (c : Command) : option Z :=
  match reply_to_message (cmd_message c) with
  | Some replied => Some (user_id (replied_from replied))
  | None =>
      match cmd_args c with
      | a :: _ => if Py.isdigit a then Py.int a else None
      | [] => None
      end
  end.

(** [not target]: no target, or the identifier 0. *)
Definition no_target (t : option Z) : bool :=
  match t with
  | Some n => n =? 0
  | None => true
  end.

Definition cmd_ban (E : Env) (c : Command) (w : World) : World :=
  let chat := chat_id (cmd_chat c) in
  if negb (is_admin E (user_id (cmd_user c))) then
    snd (call E (ReplyText chat NotAllowed) w)
  else
    let target := ban_target c in
    if no_target target then snd (call E (ReplyText chat UsageHint) w)
    else
      match target with
      | Some target =>
          let (ok, w) := call E (BanChatMember chat target) w in
          if ok then
            let w := ban_user_record E chat target w in
            let (ok', w) := call E (ReplyText chat (Text "User banned.")) w in
            if ok' then w else snd (call E (ReplyText chat FailedNotice) w)
          else snd (call E (ReplyText chat FailedNotice) w)
      | None => w
      end.

(** How [/kick] finds its target.  [resolve] is what
    [context.bot.get_chat("@name")] answers: the identifier, or [None] when
    the request raises. *)
Inductive KickTarget : Type :=
| KickUser (target : option Z)     (* target_id, possibly still None *)
| KickUnresolved.                  (* get_chat raised *)

Definition kick_target (resolve : string -> option Z) (c : Command)
  : KickTarget :=
  match reply_to_message (cmd_message c) with
  | Some replied => KickUser (Some (user_id (replied_from replied)))
  | None =>
      match cmd_args c with
      | a :: _ =>
          if Py.isdigit a then KickUser (Py.int a)
          else if Py.startswith a "@" then
            match resolve a with
            | Some id => KickUser (Some id)
            | None => KickUnresolved
            end
          else KickUser None
      | [] => KickUser None
      end
  end.

(** [/kick]: a ban followed by an unban, so that the user may join again. *)
Definition cmd_kick (E : Env) (resolve : string -> option Z) (c : Command)
    (w : World) : World :=
  let chat := chat_id (cmd_chat c) in
  if negb (is_admin E (user_id (cmd_user c))) then
    snd (call E (ReplyText chat NotAllowed) w)
  else if is_private (cmd_chat c) then
    snd (call E (ReplyText chat UsageHint) w)
  else
    match kick_target resolve c with
    | KickUnresolved =>
        snd (call E (ReplyText chat (Text "Couldn't resolve username.")) w)
    | KickUser target =>
        if no_target target then snd (call E (ReplyText chat UsageHint) w)
        else
          match target with
          | Some target_id =>
              let (ok, w) := call E (BanChatMember chat target_id) w in
              if ok then
                let (ok, w) := call E (UnbanChatMember chat target_id) w in
                if ok then
                  let (ok, w) := call E (ReplyText chat (Text "User kicked.")) w in
                  if ok then w else snd (call E (ReplyText chat FailedNotice) w)
                else snd (call E (ReplyText chat FailedNotice) w)
              else snd (call E (ReplyText chat FailedNotice) w)
          | None => w
          end
    end.

(** *** The file registry *)

(** [s.endswith("/")] *)
Fixpoint ends_with_slash (s : string) : bool :=
  match s with
  | EmptyString => false
  | String c EmptyString => Ascii.eqb c "/"
  | String _ s' => ends_with_slash s'
  end.

(** [os.path.join(a, b)] on POSIX: an absolute [b] replaces [a]; otherwise
    the two are joined by one slash unless [a] is empty or ends with one. *)
Definition path_join (a b : string) : string :=
  if Py.startswith b "/" then b
  else if Py.falsy a || ends_with_slash a then a +:+ b
  else a +:+ "/" +:+ b.

(** [/addfile <key> [desc]], sent as a reply to a document.  [document] is
    the file name of the replied document, when the replied message has
    one; [fetched] tells whether [get_file] and [download_to_drive] both
    returned.  Neither of them is inside a [try]. *)
Definition cmd_addfile (E : Env) (FILES_DIR : string)
    (document : option string) (fetched : bool) (c : Command) (w : World)
  : World :=
  let chat := chat_id (cmd_chat c) in
  if negb (is_admin E (user_id (cmd_user c))) then
    snd (call E (ReplyText chat NotAllowed) w)
  else
    match reply_to_message (cmd_message c), document with
    | Some _, Some file_name =>
        match cmd_args c with
        | [] => snd (call E (ReplyText chat (Text "Provide a key")) w)
        | key :: rest =>
            let desc := join_space rest in
            if negb fetched then w
            else
              let filename := path_join FILES_DIR (key +:+ "_" +:+ file_name) in
              let fs := <[key := {| path := filename; desc := desc |}]>
                          (files (data w)) in
              let w :=
                persist E
                  (with_data
                     (mkData (users (data w)) (warnings (data w))
                        (banned (data w)) fs (channels (data w))
                        (chats_config (data w))) w) in
              snd (call E (ReplyText chat (Text ("Saved file key " +:+ key))) w)
        end
    | _, _ => snd (call E (ReplyText chat UsageHint) w)
    end.

(** [/rmfile <key>].  Removing the file from disk is best effort and
    leaves [data] alone; the registry entry goes in any case. *)
Definition cmd_rmfile (E : Env) (c : Command) (w : World) : World :=
  let chat := chat_id (cmd_chat c) in
  if negb (is_admin E (user_id (cmd_user c))) then
    snd (call E (ReplyText chat NotAllowed) w)
  else
    match cmd_args c with
    | [] => snd (call E (ReplyText chat UsageHint) w)
    | key :: _ =>
        match files (data w) !! key with
        | None => snd (call E (ReplyText chat (Text "Unknown key")) w)
        | Some _ =>
            let fs := delete key (files (data w)) in
            let w :=
              persist E
                (with_data
                   (mkData (users (data w)) (warnings (data w))
                      (banned (data w)) fs (channels (data w))
                      (chats_config (data w))) w) in
            snd (call E (ReplyText chat (Text "Removed file entry")) w)
        end
    end.

End TGBot2.

(** ** The polling variant: TGBot.py

    Here [save_data] has no [try]: a failed write raises out of the store
    operation that asked for it, with [data] already changed in memory. *)

Inductive outcome (A : Type) : Type :=
| Done (a : A) (w : World)
| Raised (e : Exn) (w : World).
Arguments Done {A} a w.
Arguments Raised {A} e w.

Definition bind {A B : Type} (o : outcome A) (f : A -> World -> outcome B)
  : outcome B :=
  match o with
  | Done a w => f a w
  | Raised e w => Raised e w
  end.

Definition world_of {A : Type} (o : outcome A) : World :=
  match o with Done _ w => w | Raised _ w => w end.

Module TGBot.
Import Re.

Definition ADMIN_IDS : list Z := [1293486023].
Definition WARN_LIMIT : Z := 3.
Definition BANNED_WORDS : list string :=
  ["badword1"; "badword2"; "somevulgarword"].

Definition not_space (c : ascii) : bool := negb (Py.is_space c).

(** [LINK_PATTERN = (https?://|www\.|t\.me/|telegram\.me/|\S+\.com\b|\S+\.in\b)],
    ignoring case. *)
Definition LINK_PATTERN : regex :=
  alts
    [ seqs [ilit "http"; opt (ichr "s"); lit "://"];
      seqs [ilit "www"; chr "."];
      ilit "t.me/";
      ilit "telegram.me/";
      seqs [Plus not_space; chr "."; ilit "com"; Bound];
      seqs [Plus not_space; chr "."; ilit "in"; Bound] ].

Definition DEFAULT_DATA : Data :=
  {| users := []; warnings := ∅; banned := ∅; files := ∅;
     channels := []; chats_config := ∅ |}.

(** [save_data(data)]: the five keys are written; a failure raises. *)
Definition save_data (E : Env) (obj : Data) (fs : FileState)
    (tr : list Event) : result unit * (FileState * list Event) :=
  let o := disk_write E tr in
  let st := (after_write o (dump false obj) fs, tr ++ [Wrote o]) in
  match o with
  | Written => (Ok tt, st)
  | OpenFailed | DumpFailed => (Raise OSError, st)
  end.

(** [load_data()]: no [try]; what [open] or [json.load] raises goes to the
    caller, which is the module body. *)
Definition load_data (E : Env) (fs : FileState) (tr : list Event)
  : result Obj * (FileState * list Event) :=
  match fs with
  | Missing =>
      match save_data E DEFAULT_DATA fs tr with
      | (Ok _, st) => (Ok (dump false DEFAULT_DATA), st)
      | (Raise e, st) => (Raise e, st)
      end
  | Unreadable => (Raise OSError, (fs, tr))
  | Corrupt => (Raise JSONDecodeError, (fs, tr))
  | Stored o => (Ok o, (fs, tr))
  end.

Definition persist (E : Env) (w : World) : outcome unit :=
  match save_data E (data w) (disk w) (trace w) with
  | (Ok _, (fs', tr')) => Done tt (mkWorld (data w) fs' tr')
  | (Raise e, (fs', tr')) => Raised e (mkWorld (data w) fs' tr')
  end.

Definition is_admin (uid : Z) : bool := mem uid ADMIN_IDS.

Definition ensure_chat_user (E : Env) (chat uid_ : Z) (user : User)
    (w : World) : outcome unit :=
  let uid := Py.str uid_ in
  let w :=
    match dict_get uid (users (data w)) with
    | Some _ => w
    | None =>
        let info := {| first_name := or_empty (user_first_name user);
                       last_name := or_empty (user_last_name user);
                       username := or_empty (user_username user);
                       chats := [] |} in
        with_data (with_users (dict_set uid info (users (data w))) (data w)) w
    end in
  match dict_get uid (users (data w)) with
  | Some info =>
      if mem chat (chats info) then Done tt w
      else
        let info' := {| first_name := first_name info;
                        last_name := last_name info;
                        username := username info;
                        chats := chats info ++ [chat] |} in
        persist E
          (with_data (with_users (dict_set uid info' (users (data w))) (data w)) w)
  | None => Done tt w
  end.

Definition increment_warning (E : Env) (chat user : Z) (w : World)
  : outcome Z :=
  let chat_key := Py.str chat in
  let uid := Py.str user in
  let per_chat := default ∅ (warnings (data w) !! chat_key) in
  let n := default 0 (per_chat !! uid) + 1 in
  let ws := <[chat_key := <[uid := n]> per_chat]> (warnings (data w)) in
  bind (persist E (with_data (with_warnings ws (data w)) w))
       (fun _ w' => Done n w').

Definition reset_warnings (E : Env) (chat user : Z) (w : World)
  : outcome unit :=
  let chat_key := Py.str chat in
  let uid := Py.str user in
  match warnings (data w) !! chat_key with
  | Some per_chat =>
      match per_chat !! uid with
      | Some _ =>
          let ws := <[chat_key := <[uid := 0]> per_chat]> (warnings (data w)) in
          persist E (with_data (with_warnings ws (data w)) w)
      | None => Done tt w
      end
  | None => Done tt w
  end.

Definition get_warnings (d : Data) (chat user : Z) : Z :=
  default 0 (default ∅ (warnings d !! Py.str chat) !! Py.str user).

Definition ban_user_record (E : Env) (chat user : Z) (w : World)
  : outcome unit :=
  let chat_key := Py.str chat in
  let l := default [] (banned (data w) !! chat_key) in
  let w := with_data (with_banned (<[chat_key := l]> (banned (data w))) (data w)) w in
  if mem user l then Done tt w
  else
    persist E
      (with_data (with_banned (<[chat_key := l ++ [user]]> (banned (data w))) (data w)) w).

Definition unban_user_record (E : Env) (chat user : Z) (w : World)
  : outcome unit :=
  let chat_key := Py.str chat in
  match banned (data w) !! chat_key with
  | Some l =>
      if mem user l then
        persist E
          (with_data
             (with_banned (<[chat_key := remove_first user l]> (banned (data w)))
                (data w)) w)
      else Done tt w
  | None => Done tt w
  end.

Definition is_user_banned (d : Data) (chat user : Z) : bool :=
  mem user (default [] (banned d !! Py.str chat)).

Definition contains_link_or_banned (text : string) : bool :=
  if Py.falsy text then false
  else if search LINK_PATTERN text then true
  else
    let lowered := Py.lower text in
    existsb (fun w => Py.contains lowered w) BANNED_WORDS.

(** [await update.message.reply_text(...)] outside any [try]. *)
Definition reply (E : Env) (chat : Z) (body : Body) (w : World)
  : outcome unit :=
  let (ok, w) := call E (ReplyText chat body) w in
  if ok then Done tt w else Raised TelegramError w.

(** [[int(uid) for uid in keys]]: the first key that is no integer raises. *)
Fixpoint ints (keys : list string) : option (list Z) :=
  match keys with
  | [] => Some []
  | k :: rest =>
      match Py.int k, ints rest with
      | Some n, Some ns => Some (n :: ns)
      | _, _ => None
      end
  end.

Definition cmd_broadcast (E : Env) (c : Command) (w : World) : outcome unit :=
  let chat := chat_id (cmd_chat c) in
  if negb (is_admin (user_id (cmd_user c))) then reply E chat NotAllowed w
  else
    match reply_to_message (cmd_message c), cmd_args c with
    | None, [] => reply E chat UsageHint w
    | Some forward_from, [] =>
        (* We'll forward the message to each user (keeps format) *)
        let recipients := map fst (users (data w)) in
        let mk := fun rid => ForwardMessage rid chat (replied_id forward_from) in
        let '(sent, failed, tr) :=
          send_loop E mk (map Py.int recipients) (0, 0, trace w) in
        reply E chat (BroadcastReport sent failed) (with_trace tr w)
    | _, args =>
        let text := join_space args in
        match ints (map fst (users (data w))) with
        | None => Raised ValueError w
        | Some recipients =>
            (* Also include channels stored in data["channels"] if any *)
            let channel_ids := channels (data w) in
            let mk := fun rid => SendMessage rid (Text text) in
            let '(sent, failed, tr) :=
              send_loop E mk (map Some (recipients ++ channel_ids))
                (0, 0, trace w) in
            reply E chat (BroadcastReport sent failed) (with_trace tr w)
        end
    end.

Definition cmd_unban (E : Env) (c : Command) (w : World) : outcome unit :=
  let chat := chat_id (cmd_chat c) in
  if negb (is_admin (user_id (cmd_user c))) then reply E chat NotAllowed w
  else
    match cmd_args c with
    | [] => reply E chat UsageHint w
    | a :: _ =>
        if negb (Py.isdigit a) then reply E chat UsageHint w
        else
          match Py.int a with
          | None => Raised ValueError w
          | Some target_id =>
              let (ok, w) := call E (UnbanChatMember chat target_id) w in
              if ok then
                match unban_user_record E chat target_id w with
                | Done _ w =>
                    let (ok', w) := call E (ReplyText chat UserUnbanned) w in
                    if ok' then Done tt w else reply E chat FailedNotice w
                | Raised _ w => reply E chat FailedNotice w
                end
              else reply E chat FailedNotice w
          end
    end.

Definition message_handler (E : Env) (u : Update) (w : World) : outcome unit :=
  match effective_message u, effective_user u, effective_chat u with
  | Some msg, Some user, Some chat =>
      bind (ensure_chat_user E (chat_id chat) (user_id user) user w)
        (fun _ w =>
           if is_group chat then
             let text := or_empty (text msg) +:+ " " +:+ or_empty (caption msg) in
             if contains_link_or_banned text then
               let (_, w) :=
                 call E (DeleteMessage (chat_id chat) (message_id msg)) w in
               bind (increment_warning E (chat_id chat) (user_id user) w)
                 (fun new_count w =>
                    let (_, w) :=
                      call E (SendMessage (chat_id chat)
                                (WarningNotice (user_id user) new_count WARN_LIMIT)) w in
                    if WARN_LIMIT <=? new_count then
                      let (ok, w) :=
                        call E (BanChatMember (chat_id chat) (user_id user)) w in
                      if ok then
                        match ban_user_record E (chat_id chat) (user_id user) w with
                        | Done _ w =>
                            Done tt
                              (snd (call E (SendMessage (chat_id chat)
                                              (BannedNotice (user_id user))) w))
                        | Raised _ w => Done tt w
                        end
                      else Done tt w
                    else Done tt w)
             else Done tt w
           else Done tt w)
  | _, _, _ => Done tt w
  end.

(** *** Manual moderation commands *)

(** What the body of a [try] leaves behind when its last statement, a
    reply, may raise into [except Exception: reply(failure)]. *)
Definition reply_or_report (E : Env) (chat : Z) (body : Body) (w : World)
  : outcome unit :=
  let (ok, w) := call E (ReplyText chat body) w in
  if ok then Done tt w else reply E chat FailedNotice w.

Definition cmd_warn (E : Env) (c : Command) (w : World) : outcome unit :=
  let chat := chat_id (cmd_chat c) in
  if negb (is_admin (user_id (cmd_user c))) then reply E chat NotAllowed w
  else
    match reply_to_message (cmd_message c) with
    | None => reply E chat UsageHint w
    | Some replied =>
        let target := replied_from replied in
        bind (increment_warning E chat (user_id target) w)
          (fun new_count w =>
             bind (reply E chat
                     (Text ("Warned " +:+ TGBot2.full_name target
                            +:+ ". Total warnings in this chat: "
                            +:+ Py.str new_count)) w)
               (fun _ w =>
                  if WARN_LIMIT <=? new_count then
                    let (ok, w) := call E (BanChatMember chat (user_id target)) w in
                    if ok then
                      match ban_user_record E chat (user_id target) w with
                      | Done _ w =>
                          reply_or_report E chat (BannedNotice (user_id target)) w
                      | Raised _ w => reply E chat FailedNotice w
                      end
                    else reply E chat FailedNotice w
                  else Done tt w))
    end.

(** The target of [/ban]; [None] is the [else] branch that answers with the
    usage line. *)
Definition ban_target (c : Command) : option Z :=
  match reply_to_message (cmd_message c) with
  | Some replied => Some (user_id (replied_from replied))
  | None =>
      match cmd_args c with
      | a :: _ => if Py.isdigit a then Py.int a else None
      | [] => None
      end
  end.

Definition cmd_ban (E : Env) (c : Command) (w : World) : outcome unit :=
  let chat := chat_id (cmd_chat c) in
  if negb (is_admin (user_id (cmd_user c))) then reply E chat NotAllowed w
  else
    match ban_target c with
    | None => reply E chat UsageHint w
    | Some target_id =>
        let (ok, w) := call E (BanChatMember chat target_id) w in
        if ok then
          match ban_user_record E chat target_id w with
          | Done _ w => reply_or_report E chat (Text "User banned.") w
          | Raised _ w => reply E chat FailedNotice w
          end
        else reply E chat FailedNotice w
    end.

Definition kick_target (resolve : string -> option Z) (c : Command)
  : TGBot2.KickTarget :=
  match reply_to_message (cmd_message c) with
  | Some replied => TGBot2.KickUser (Some (user_id (replied_from replied)))
  | None =>
      match cmd_args c with
      | raw :: _ =>
          if Py.startswith raw "@" then
            match resolve raw with
            | Some id => TGBot2.KickUser (Some id)
            | None => TGBot2.KickUnresolved
            end
          else if Py.isdigit raw then TGBot2.KickUser (Py.int raw)
          else TGBot2.KickUser None
      | [] => TGBot2.KickUser None
      end
  end.

Definition cmd_kick (E : Env) (resolve : string -> option Z) (c : Command)
    (w : World) : outcome unit :=
  let chat := chat_id (cmd_chat c) in
  if negb (is_admin (user_id (cmd_user c))) then reply E chat NotAllowed w
  else if is_private (cmd_chat c) then reply E chat UsageHint w
  else
    match kick_target resolve c with
    | TGBot2.KickUnresolved =>
        reply E chat (Text "Couldn't resolve that username. Try replying to the user instead.") w
    | TGBot2.KickUser target =>
        if TGBot2.no_target target then reply E chat UsageHint w
        else
          match target with
          | Some target_id =>
              let (ok, w) := call E (BanChatMember chat target_id) w in
              if ok then
                let (ok, w) := call E (UnbanChatMember chat target_id) w in
                if ok then
                  reply_or_report E chat (Text "User kicked successfully.") w
                else reply E chat FailedNotice w
              else reply E chat FailedNotice w
          | None => Done tt w
          end
    end.

End TGBot.

(** ** Vocabulary of the statements *)

(** [w] occurs in [s]. *)
Definition substring (w s : string) : Prop :=
  exists a b : string, s = a +:+ w +:+ b.

Definition lowercase (w : string) : Prop := Py.lower w = w.

(** The gateway requests of a trace, in order. *)
Definition calls (tr : list Event) : list Call :=
  flat_map (fun e => match e with Called c _ => [c] | Wrote _ => [] end) tr.

Definition is_ban_request (chat user : Z) (c : Call) : bool :=
  match c with
  | BanChatMember c' u' => (c' =? chat) && (u' =? user)
  | _ => false
  end.

(** How many times a ban of [user] in [chat] was requested. *)
Definition ban_requests (chat user : Z) (tr : list Event) : nat :=
  length (List.filter (is_ban_request chat user) (calls tr)).

(** The recipients of the send and forward requests of a trace, in order. *)
Definition attempts (tr : list Event) : list Z :=
  flat_map (fun c => match c with
                     | SendMessage r _ | ForwardMessage r _ _ => [r]
                     | _ => []
                     end) (calls tr).

(** The send and forward requests of a trace that raised. *)
Definition failures (tr : list Event) : nat :=
  length (List.filter
            (fun e => match e with
                      | Called (SendMessage _ _) false
                      | Called (ForwardMessage _ _ _) false => true
                      | _ => false
                      end) tr).

(** Every stored warning count is non-negative. *)
Definition counts_nonneg (d : Data) : Prop :=
  forall ck per_chat uk n,
    warnings d !! ck = Some per_chat -> per_chat !! uk = Some n -> 0 <= n.

(** The operations of the state store of the webhook variant. *)
Inductive StoreOp2 : Type :=
| EnsureUserRegistered2 (user : User) (chat : option Z)
| SetChatConfig2 (chat : Z) (conf : StoredConf)
| IncrementWarning2 (chat user : Z)
| ResetWarnings2 (chat user : Z)
| BanUserRecord2 (chat user : Z).

Definition apply2 (E : Env) (w : World) (op : StoreOp2) : World :=
  match op with
  | EnsureUserRegistered2 user chat => TGBot2.ensure_user_registered E user chat w
  | SetChatConfig2 chat conf => TGBot2.set_chat_config E chat conf w
  | IncrementWarning2 chat user => snd (TGBot2.increment_warning E chat user w)
  | ResetWarnings2 chat user => TGBot2.reset_warnings E chat user w
  | BanUserRecord2 chat user => TGBot2.ban_user_record E chat user w
  end.

(** The operations of the state store of the polling variant. *)
Inductive StoreOp1 : Type :=
| EnsureChatUser1 (chat uid : Z) (user : User)
| IncrementWarning1 (chat user : Z)
| ResetWarnings1 (chat user : Z)
| BanUserRecord1 (chat user : Z)
| UnbanUserRecord1 (chat user : Z).

(** The world an operation leaves behind, whether it returned or raised. *)
Definition apply1 (E : Env) (w : World) (op : StoreOp1) : World :=
  match op with
  | EnsureChatUser1 chat uid user => world_of (TGBot.ensure_chat_user E chat uid user w)
  | IncrementWarning1 chat user => world_of (TGBot.increment_warning E chat user w)
  | ResetWarnings1 chat user => world_of (TGBot.reset_warnings E chat user w)
  | BanUserRecord1 chat user => world_of (TGBot.ban_user_record E chat user w)
  | UnbanUserRecord1 chat user => world_of (TGBot.unban_user_record E chat user w)
  end.

(** A message of [user] in [chat], as the moderation handler receives it. *)
Definition incoming (user : User) (chat : Chat) (msg : Message) : Update :=
  {| effective_message := Some msg;
     effective_user := Some user;
     effective_chat := Some chat |}.


(** The text of a message violates the policy [conf]. *)
Definition violates (conf : Conf) (msg : Message) : bool :=
  let text := or_empty (text msg) +:+ " " +:+ or_empty (caption msg) in
  Classifier2.text_contains_link text
  || is_some (Classifier2.text_contains_banned_word text
                (elements (banned_words conf))).

(** A token of [/setconfig] names a key. *)
Definition names (key : string) (token : string) : bool :=
  Py.startswith token key.

(** Two worlds that differ at most in the user roster and in what was
    written to disk: same warnings, ban ledger, policies, channels and
    gateway requests. *)
Definition same_moderation_state (w w' : World) : Prop :=
  warnings (data w') = warnings (data w)
  /\ banned (data w') = banned (data w)
  /\ chats_config (data w') = chats_config (data w)
  /\ channels (data w') = channels (data w)
  /\ calls (trace w') = calls (trace w).


(** *** Sample inputs *)

(** Every gateway request returns and every write succeeds. *)
Definition env_ok : Env :=
  {| gateway := fun _ _ => true;
     disk_write := fun _ => Written;
     ADMIN_IDS := [123456789] |}.

(** The bot has no right to ban: those requests raise. *)
Definition env_ban_refused : Env :=
  {| gateway := fun _ c => match c with BanChatMember _ _ => false | _ => true end;
     disk_write := fun _ => Written;
     ADMIN_IDS := [123456789] |}.

(** Sending to the recipients 2 and 4 raises. *)
Definition env_two_fail : Env :=
  {| gateway := fun _ c =>
       match c with
       | SendMessage r _ | ForwardMessage r _ _ => negb ((r =? 2) || (r =? 4))
       | _ => true
       end;
     disk_write := fun _ => Written;
     ADMIN_IDS := [123456789] |}.

Definition admin : User :=
  {| user_id := 123456789; user_first_name := Some "Ada";
     user_last_name := None; user_username := None |}.

Definition bob : User :=
  {| user_id := 42; user_first_name := Some "Bob";
     user_last_name := None; user_username := Some "bob" |}.

Definition a_group : Chat := {| chat_id := -1001; chat_type := supergroup |}.

Definition text_message (id : Z) (s : string) : Message :=
  {| message_id := id; text := Some s; caption := None;
     reply_to_message := None |}.

Definition link_message (id : Z) : Message :=
  text_message id "visit http://example.com now".

Definition command (user : User) (args : list string) : Command :=
  {| cmd_user := user; cmd_chat := a_group;
     cmd_message := text_message 1 ""; cmd_args := args |}.

(** The webhook variant right after a start with no data file. *)
Definition fresh2 (E : Env) : World := TGBot2.load_data E Missing [].

(** The sample group after an administrator sent [/setconfig delete_links=off]. *)
Definition links_allowed : World :=
  TGBot2.cmd_setconfig env_ok (command admin ["delete_links=off"]) (fresh2 env_ok).

(** The administrator named in the polling variant's [ADMIN_IDS]. *)
Definition admin1 : User :=
  {| user_id := 1293486023; user_first_name := Some "Ada";
     user_last_name := None; user_username := None |}.

(** A store whose ledger says that user 42 is banned from the sample group. *)
Definition ledger_world : World :=
  {| data := with_banned {[ "-1001" := [42] ]} TGBot2.DEFAULT_DATA;
     disk := Missing;
     trace := [] |}.

Definition user_info (name : string) : UserInfo :=
  {| first_name := name; last_name := ""; username := ""; chats := [] |}.

(** A roster of one user and one channel. *)
Definition roster_world : World :=
  {| data :=
       {| users := [("7", user_info "Gil")]; warnings := ∅; banned := ∅;
          files := ∅; channels := [-1002003]; chats_config := ∅ |};
     disk := Missing;
     trace := [] |}.

(** A roster of five users and no channel. *)
Definition five_users : World :=
  {| data :=
       {| users := map (fun k => (k, user_info k)) ["1"; "2"; "3"; "4"; "5"];
          warnings := ∅; banned := ∅; files := ∅; channels := [];
          chats_config := ∅ |};
     disk := Missing;
     trace := [] |}.

(** [/broadcast] sent as a reply to message 900, with no arguments. *)
Definition forward_command (user : User) : Command :=
  {| cmd_user := user; cmd_chat := a_group;
     cmd_message :=
       {| message_id := 901; text := Some "/broadcast"; caption := None;
          reply_to_message := Some {| replied_id := 900; replied_from := bob |} |};
     cmd_args := [] |}.

(** The recipients that were computed, and how many were not. *)
Definition somes (l : list (option Z)) : list Z := omap id l.
Definition nones (l : list (option Z)) : nat :=
  length (List.filter (fun r => negb (is_some r)) l).

(** A request that delivers to [r]: a send or a forward. *)
Definition delivers_to (c : Call) (r : Z) : Prop :=
  (exists body, c = SendMessage r body)
  \/ (exists from_chat msg, c = ForwardMessage r from_chat msg).

(** The polling variant with an empty store, and its handler run over the
    messages of one user in one chat. *)
Definition fresh1 : World :=
  {| data := TGBot.DEFAULT_DATA; disk := Missing; trace := [] |}.

Definition moderate1 (E : Env) (user : User) (chat : Chat)
    (msgs : list Message) (w : World) : World :=
  fold_left
    (fun w msg => world_of (TGBot.message_handler E (incoming user chat msg) w))
    msgs w.



(** Every banned word stored in a chat's configuration is in lower case. *)
Definition stored_lowercase (d : Data) : Prop :=
  forall key conf ws,
    chats_config d !! key = Some conf ->
    sc_banned_words conf = Some ws ->
    Forall lowercase ws.

(** A roster that only grew: every entry is still there under its key,
    with the names it had and a chat list that was at most extended; the
    keys keep their order, new ones come last; and no key is doubled. *)
Definition extends_info (info info' : UserInfo) : Prop :=
  first_name info' = first_name info
  /\ last_name info' = last_name info
  /\ username info' = username info
  /\ exists more, chats info' = chats info ++ more.

Definition roster_grows (l l' : list (string * UserInfo)) : Prop :=
  (forall key info,
      dict_get key l = Some info ->
      exists info', dict_get key l' = Some info' /\ extends_info info info')
  /\ (exists new, map fst l' = map fst l ++ new)
  /\ (NoDup (map fst l) -> NoDup (map fst l')).

(** The disk is full: the data file is truncated and the write breaks off. *)
Definition env_disk_full : Env :=
  {| gateway := fun _ _ => true;
     disk_write := fun _ => DumpFailed;
     ADMIN_IDS := [123456789] |}.

(** * Properties *)

(** ** Integers and their decimal form *)

Lemma int_str (z : Z) : Py.int (Py.str z) = Some z.
Proof.
  unfold Py.int, Py.str.
  rewrite NilZero.isi.
  - cbn. f_equal. apply DecimalZ.of_to.
  - destruct z; cbn; try discriminate.
    intros [= H]. now apply DecimalPos.Unsigned.to_uint_nonnil in H.
  - destruct z; cbn; try discriminate.
    intros [= H]. now apply DecimalPos.Unsigned.to_uint_nonnil in H.
Qed.

Lemma str_inj (a b : Z) : Py.str a = Py.str b -> a = b.
Proof.
  intros H. assert (Some a = Some b) as [= ->]; [|reflexivity].
  rewrite <- !int_str. now rewrite H.
Qed.

Lemma str_ne (a b : Z) : a <> b -> Py.str a <> Py.str b.
Proof. intros H Heq. apply H. now apply str_inj. Qed.

(** ** The matcher *)

Section MatcherFacts.
Import Re.

Lemma app_cons_s (x : ascii) (a b : string) :
  String x a +:+ b = String x (a +:+ b).
Proof. reflexivity. Qed.

Lemma app_nil_l_s (b : string) : "" +:+ b = b.
Proof. reflexivity. Qed.

Lemma app_assoc_s (a b c : string) : (a +:+ b) +:+ c = a +:+ (b +:+ c).
Proof.
  induction a as [|x a IH]; [reflexivity|].
  rewrite !app_cons_s. now f_equal.
Qed.

Lemma app_nil_r_s (a : string) : a +:+ "" = a.
Proof.
  induction a as [|x a IH]; [reflexivity|].
  rewrite app_cons_s. now f_equal.
Qed.














(** A match that succeeds whatever precedes it is found by a search of any
    text it is a suffix of. *)
Lemma search_from_app (r : regex) (s : string) :
  (forall prev, match_here r prev s = true) ->
  forall p prev, search_from r prev (p +:+ s) = true.
Proof.
  intros Hs p. induction p as [|c p IH]; intros prev.
  - rewrite app_nil_l_s. destruct s; cbn; now rewrite Hs.
  - rewrite app_cons_s. cbn. rewrite IH. apply orb_true_r.
Qed.

End MatcherFacts.

(** ** The content classifier *)

Section ClassifierFacts.
Import Re Classifier2.










Lemma startswith_spec (p s : string) :
  Py.startswith s p = true <-> exists b, s = p +:+ b.
Proof.
  revert s. induction p as [|a p IH]; intros s; cbn.
  - split; [intros _; now exists s | reflexivity].
  - destruct s as [|b s]; cbn.
    + split; [discriminate | intros [t Ht]; discriminate].
    + rewrite andb_true_iff, IH. split.
      * intros [->%Ascii.eqb_eq [t ->]]. now exists t.
      * intros [t Ht]. rewrite app_cons_s in Ht. injection Ht as -> ->.
        split; [apply Ascii.eqb_refl | now exists t].
Qed.

(** [w in s] holds exactly when [w] is a substring of [s]. *)
Lemma contains_spec (w s : string) :
  Py.contains s w = true <-> substring w s.
Proof.
  unfold substring. induction s as [|c s IH]; cbn.
  - rewrite orb_false_r, startswith_spec. split.
    + intros [b Hb]. now exists "", b.
    + intros (a & b & Hab). destruct a; [|discriminate].
      rewrite app_nil_l_s in Hab. now exists b.
  - rewrite orb_true_iff, IH. pose proof (startswith_spec w (String c s)) as Hs.
    cbn in Hs. rewrite Hs. clear Hs. split.
    + intros [[b Hb]|(a & b & ->)].
      * now exists "", b.
      * now exists (String c a), b.
    + intros (a & b & Hab). destruct a as [|x a].
      * left. now exists b.
      * right. rewrite app_cons_s in Hab. injection Hab as -> ->. now exists a, b.
Qed.

Lemma first_banned_spec (lowered : string) (ws : list string) :
  is_Some (first_banned lowered ws) <->
  exists w, w ∈ ws /\ w <> "" /\ Py.contains lowered w = true.
Proof.
  induction ws as [|w ws IH]; cbn.
  - split; [intros [x Hx]; discriminate | intros (w & Hw & _); inversion Hw].
  - destruct w as [|c w]; cbn.
    + rewrite IH. split.
      * intros (w' & Hin & Hne & Hc). exists w'. split; [now right | easy].
      * intros (w' & Hin & Hne & Hc). exists w'.
        apply elem_of_cons in Hin as [->|Hin]; easy.
    + destruct (Py.contains lowered (String c w)) eqn:Hc.
      * split; [|intros _; eauto].
        intros _. exists (String c w). split; [now left | easy].
      * rewrite IH. split.
        -- intros (w' & Hin & Hne & Hc'). exists w'. split; [now right | easy].
        -- intros (w' & Hin & Hne & Hc'). exists w'.
           apply elem_of_cons in Hin as [->|Hin]; [congruence | easy].
Qed.

(** C6.  Banned-word detection is a case-insensitive substring match of
    the words of the banned set (which the programs keep in lower case)
    against the text: with the set {"spam"}, "SPAM now" and "buy Spam1"
    match and "span" does not; the empty text never matches. *)
Theorem C6_banned_word_match (text : string) (ws : list string) :
  Forall lowercase ws ->
  (is_Some (text_contains_banned_word text ws) <->
     text <> "" /\
     exists w, w ∈ ws /\ w <> "" /\ substring (Py.lower w) (Py.lower text))
  /\ text_contains_banned_word "SPAM now" ["spam"] = Some "spam"
  /\ text_contains_banned_word "buy Spam1" ["spam"] = Some "spam"
  /\ text_contains_banned_word "span" ["spam"] = None
  /\ text_contains_banned_word "" ws = None.
Proof.
  intros Hlow. split; [|repeat split; reflexivity].
  unfold text_contains_banned_word. destruct text as [|c text]; cbn [Py.falsy].
  - split; [intros [x Hx]; discriminate | intros [H _]; now destruct H].
  - rewrite first_banned_spec. split.
    + intros (w & Hin & Hne & Hc). split; [discriminate|]. exists w.
      rewrite Forall_forall in Hlow. rewrite (Hlow w Hin).
      now rewrite <- contains_spec.
    + intros (_ & w & Hin & Hne & Hs). exists w.
      rewrite Forall_forall in Hlow. rewrite (Hlow w Hin) in Hs.
      now rewrite contains_spec.
Qed.

Lemma C6_banned_word_match_witness :
  is_Some (text_contains_banned_word "buy Spam1" ["spam"]) <->
  "buy Spam1" <> "" /\
  exists w, w ∈ ["spam"] /\ w <> ""
            /\ substring (Py.lower w) (Py.lower "buy Spam1").
Proof.
  apply (C6_banned_word_match "buy Spam1" ["spam"]).
  repeat constructor.
Defined.

End ClassifierFacts.

(** ** The state store *)

Section StoreFacts.

Lemma persist2_data E w : data (TGBot2.persist E w) = data w.
Proof. reflexivity. Qed.

Lemma persist2_calls E w : calls (trace (TGBot2.persist E w)) = calls (trace w).
Proof.
  unfold TGBot2.persist, TGBot2.save_data, calls. cbn.
  rewrite flat_map_app. cbn. apply app_nil_r.
Qed.

Lemma persist1_data E w : data (world_of (TGBot.persist E w)) = data w.
Proof.
  unfold TGBot.persist, TGBot.save_data. now destruct (disk_write E (trace w)).
Qed.

Lemma persist1_calls E w :
  calls (trace (world_of (TGBot.persist E w))) = calls (trace w).
Proof.
  unfold TGBot.persist, TGBot.save_data, calls.
  destruct (disk_write E (trace w)); cbn;
    rewrite flat_map_app; cbn; apply app_nil_r.
Qed.

Lemma call_data E c w : data (snd (call E c w)) = data w.
Proof. reflexivity. Qed.

Lemma call_calls E c w : calls (trace (snd (call E c w))) = calls (trace w) ++ [c].
Proof. unfold call, request, calls. cbn. now rewrite flat_map_app. Qed.

(** The count of a pair after one entry of [data["warnings"]] was set. *)
Lemma count_after_set (d : Data) (ck uk : string) (n : Z) (chat user : Z) :
  TGBot2.warning_count
    (with_warnings
       (<[ck := <[uk := n]> (default ∅ (warnings d !! ck))]> (warnings d)) d)
    chat user
  = if decide (ck = Py.str chat /\ uk = Py.str user) then n
    else TGBot2.warning_count d chat user.
Proof.
  unfold TGBot2.warning_count. cbn.
  destruct (decide (ck = Py.str chat)) as [->|Hc].
  - rewrite lookup_insert_eq. cbn.
    destruct (decide (uk = Py.str user)) as [->|Hu].
    + rewrite lookup_insert_eq. now rewrite decide_True.
    + rewrite lookup_insert_ne by done. rewrite decide_False; [done|].
      now intros [_ ?].
  - rewrite lookup_insert_ne by done. rewrite decide_False; [done|].
    now intros [? _].
Qed.

Lemma nonneg_after_set (d : Data) (ck uk : string) (n : Z) :
  counts_nonneg d -> 0 <= n ->
  counts_nonneg
    (with_warnings
       (<[ck := <[uk := n]> (default ∅ (warnings d !! ck))]> (warnings d)) d).
Proof.
  intros Hd Hn ck' m uk' n'. cbn.
  destruct (decide (ck = ck')) as [->|Hc].
  - rewrite lookup_insert_eq. intros [= <-].
    destruct (decide (uk = uk')) as [->|Hu].
    + rewrite lookup_insert_eq. now intros [= <-].
    + rewrite lookup_insert_ne by done.
      destruct (warnings d !! ck') as [m|] eqn:Hm; cbn.
      * now apply (Hd ck' m).
      * now rewrite lookup_empty.
  - rewrite lookup_insert_ne by done. apply Hd.
Qed.

Lemma nonneg_count (d : Data) (chat user : Z) :
  counts_nonneg d -> 0 <= TGBot2.warning_count d chat user.
Proof.
  intros Hd. unfold TGBot2.warning_count.
  destruct (warnings d !! Py.str chat) as [m|] eqn:Hm; cbn.
  - destruct (m !! Py.str user) as [n|] eqn:Hn; cbn; [|lia].
    now apply (Hd _ _ _ _ Hm Hn).
  - now rewrite lookup_empty.
Qed.

(** *** Webhook variant: what each operation does to [data] *)

Lemma same_refl w : same_moderation_state w w.
Proof. now repeat split. Qed.

Lemma same_trans w1 w2 w3 :
  same_moderation_state w1 w2 -> same_moderation_state w2 w3 ->
  same_moderation_state w1 w3.
Proof. intros (?&?&?&?&?) (?&?&?&?&?). repeat split; congruence. Qed.

Lemma same_users2 E us w :
  same_moderation_state w
    (TGBot2.persist E (with_data (with_users us (data w)) w)).
Proof. repeat split. now rewrite persist2_calls. Qed.

Lemma register2_frame E user chat w :
  same_moderation_state w (TGBot2.ensure_user_registered E user chat w).
Proof.
  unfold TGBot2.ensure_user_registered.
  match goal with |- context [match chat with _ => _ end] =>
    match goal with |- context [data ?x] =>
      match x with
      | match dict_get _ _ with _ => _ end =>
          assert (same_moderation_state w x) as H1; [|set (w1 := x) in *]
      end end end.
  { destruct (dict_get _ _); [apply same_refl | apply same_users2]. }
  apply (same_trans _ _ _ H1).
  clearbody w1. destruct chat; [|apply same_refl].
  destruct (dict_get _ (users (data w1))); [|apply same_refl].
  destruct (mem _ _); [apply same_refl | apply same_users2].
Qed.

Lemma set_config2_frame E chat conf w :
  warnings (data (TGBot2.set_chat_config E chat conf w)) = warnings (data w)
  /\ banned (data (TGBot2.set_chat_config E chat conf w)) = banned (data w)
  /\ calls (trace (TGBot2.set_chat_config E chat conf w)) = calls (trace w).
Proof.
  unfold TGBot2.set_chat_config. repeat split. now rewrite persist2_calls.
Qed.

Lemma increment2_spec E chat user w :
  fst (TGBot2.increment_warning E chat user w)
  = TGBot2.warning_count (data w) chat user + 1
  /\ data (snd (TGBot2.increment_warning E chat user w))
     = with_warnings
         (<[Py.str chat :=
              <[Py.str user := TGBot2.warning_count (data w) chat user + 1]>
                (default ∅ (warnings (data w) !! Py.str chat))]>
            (warnings (data w))) (data w)
  /\ calls (trace (snd (TGBot2.increment_warning E chat user w)))
     = calls (trace w).
Proof.
  unfold TGBot2.increment_warning. repeat split. cbn [snd].
  now rewrite persist2_calls.
Qed.

Lemma reset2_spec E chat user w :
  (data (TGBot2.reset_warnings E chat user w) = data w
   \/ data (TGBot2.reset_warnings E chat user w)
      = with_warnings
          (<[Py.str chat :=
               <[Py.str user := 0]>
                 (default ∅ (warnings (data w) !! Py.str chat))]>
             (warnings (data w))) (data w))
  /\ TGBot2.warning_count (data (TGBot2.reset_warnings E chat user w))
       chat user = 0.
Proof.
  unfold TGBot2.reset_warnings, TGBot2.warning_count.
  destruct (warnings (data w) !! Py.str chat) as [m|] eqn:Hm.
  - destruct (m !! Py.str user) as [n|] eqn:Hn.
    + split; [right; reflexivity|]. cbn.
      rewrite lookup_insert_eq. cbn. now rewrite lookup_insert_eq.
    + split; [now left|]. rewrite Hm. cbn. now rewrite Hn.
  - split; [now left|]. rewrite Hm. cbn. now rewrite lookup_empty.
Qed.

Lemma ban2_frame E chat user w :
  warnings (data (TGBot2.ban_user_record E chat user w)) = warnings (data w)
  /\ chats_config (data (TGBot2.ban_user_record E chat user w))
     = chats_config (data w)
  /\ calls (trace (TGBot2.ban_user_record E chat user w)) = calls (trace w).
Proof.
  unfold TGBot2.ban_user_record.
  destruct (mem user _); repeat split. now rewrite persist2_calls.
Qed.

Lemma count_ext (d d' : Data) chat user :
  warnings d' = warnings d ->
  TGBot2.warning_count d' chat user = TGBot2.warning_count d chat user.
Proof. unfold TGBot2.warning_count. now intros ->. Qed.

Lemma nonneg_ext (d d' : Data) :
  warnings d' = warnings d -> counts_nonneg d -> counts_nonneg d'.
Proof. unfold counts_nonneg. now intros ->. Qed.

Lemma count_same_keys (d : Data) c u chat user :
  Py.str c = Py.str chat -> Py.str u = Py.str user ->
  TGBot2.warning_count d c u = TGBot2.warning_count d chat user.
Proof. unfold TGBot2.warning_count. now intros -> ->. Qed.

Lemma apply2_nonneg E w op :
  counts_nonneg (data w) -> counts_nonneg (data (apply2 E w op)).
Proof.
  intros Hw. destruct op as [u c|c conf|c u|c u|c u]; cbn [apply2].
  - eapply nonneg_ext; [|exact Hw]. apply register2_frame.
  - eapply nonneg_ext; [|exact Hw]. apply set_config2_frame.
  - destruct (increment2_spec E c u w) as (_ & -> & _).
    apply nonneg_after_set; [exact Hw|].
    pose proof (nonneg_count _ c u Hw). lia.
  - destruct (reset2_spec E c u w) as ([->| ->] & _); [exact Hw|].
    now apply nonneg_after_set.
  - eapply nonneg_ext; [|exact Hw]. apply ban2_frame.
Qed.

Lemma run2_nonneg E ops w :
  counts_nonneg (data w) -> counts_nonneg (data (fold_left (apply2 E) ops w)).
Proof.
  revert w. induction ops as [|op ops IH]; intros w Hw; cbn; [exact Hw|].
  apply IH. now apply apply2_nonneg.
Qed.

Lemma apply2_monotone E w op chat user :
  op <> ResetWarnings2 chat user ->
  TGBot2.warning_count (data w) chat user
  <= TGBot2.warning_count (data (apply2 E w op)) chat user.
Proof.
  intros Hop. destruct op as [u c|c conf|c u|c u|c u]; cbn [apply2].
  - apply Z.eq_le_incl. symmetry. apply count_ext, register2_frame.
  - apply Z.eq_le_incl. symmetry. apply count_ext, set_config2_frame.
  - destruct (increment2_spec E c u w) as (_ & -> & _).
    rewrite count_after_set. case_decide as Hk; [|lia].
    destruct Hk as [Hc Hu]. rewrite (count_same_keys _ _ _ _ _ Hc Hu). lia.
  - destruct (reset2_spec E c u w) as ([->| ->] & _); [lia|].
    rewrite count_after_set. case_decide as Hk; [|lia].
    destruct Hk as [Hc%str_inj Hu%str_inj]. congruence.
  - apply Z.eq_le_incl. symmetry. apply count_ext, ban2_frame.
Qed.

(** *** Polling variant *)

Lemma get_warnings_count d chat user :
  TGBot.get_warnings d chat user = TGBot2.warning_count d chat user.
Proof. reflexivity. Qed.

Lemma persist1_warnings E w :
  warnings (data (world_of (TGBot.persist E w))) = warnings (data w).
Proof. now rewrite persist1_data. Qed.

Lemma ensure_chat_user_warnings E chat uid user w :
  warnings (data (world_of (TGBot.ensure_chat_user E chat uid user w)))
  = warnings (data w).
Proof.
  unfold TGBot.ensure_chat_user.
  destruct (dict_get (Py.str uid) (users (data w))) as [i|] eqn:Hi.
  - rewrite Hi. destruct (mem chat (chats i)); [reflexivity|].
    now rewrite persist1_data.
  - match goal with |- context [match ?x with Some _ => _ | None => _ end] =>
      destruct x as [i|] end; [|reflexivity].
    destruct (mem chat (chats i)); [reflexivity|].
    now rewrite persist1_data.
Qed.

Lemma increment1_data E chat user w :
  data (world_of (TGBot.increment_warning E chat user w))
  = with_warnings
      (<[Py.str chat :=
           <[Py.str user := TGBot2.warning_count (data w) chat user + 1]>
             (default ∅ (warnings (data w) !! Py.str chat))]>
         (warnings (data w))) (data w).
Proof.
  unfold TGBot.increment_warning.
  match goal with |- context [TGBot.persist E ?x] =>
    pose proof (persist1_data E x) as H; destruct (TGBot.persist E x) end;
    exact H.
Qed.

Lemma reset1_spec E chat user w :
  (data (world_of (TGBot.reset_warnings E chat user w)) = data w
   \/ data (world_of (TGBot.reset_warnings E chat user w))
      = with_warnings
          (<[Py.str chat :=
               <[Py.str user := 0]>
                 (default ∅ (warnings (data w) !! Py.str chat))]>
             (warnings (data w))) (data w))
  /\ TGBot2.warning_count
       (data (world_of (TGBot.reset_warnings E chat user w))) chat user = 0.
Proof.
  unfold TGBot.reset_warnings, TGBot2.warning_count.
  destruct (warnings (data w) !! Py.str chat) as [m|] eqn:Hm.
  - destruct (m !! Py.str user) as [n|] eqn:Hn.
    + rewrite persist1_data. split; [right; reflexivity|]. cbn.
      rewrite lookup_insert_eq. cbn. now rewrite lookup_insert_eq.
    + split; [now left|]. cbn. rewrite Hm. cbn. now rewrite Hn.
  - split; [now left|]. cbn. rewrite Hm. cbn. now rewrite lookup_empty.
Qed.

Lemma ban1_warnings E chat user w :
  warnings (data (world_of (TGBot.ban_user_record E chat user w)))
  = warnings (data w).
Proof.
  unfold TGBot.ban_user_record.
  destruct (mem user _); [reflexivity|]. now rewrite persist1_data.
Qed.

Lemma unban1_warnings E chat user w :
  warnings (data (world_of (TGBot.unban_user_record E chat user w)))
  = warnings (data w).
Proof.
  unfold TGBot.unban_user_record.
  destruct (banned (data w) !! Py.str chat) as [l|]; [|reflexivity].
  destruct (mem user l); [|reflexivity]. now rewrite persist1_data.
Qed.

Lemma apply1_nonneg E w op :
  counts_nonneg (data w) -> counts_nonneg (data (apply1 E w op)).
Proof.
  intros Hw. destruct op as [c i u|c u|c u|c u|c u]; cbn [apply1].
  - eapply nonneg_ext; [|exact Hw]. apply ensure_chat_user_warnings.
  - rewrite increment1_data. apply nonneg_after_set; [exact Hw|].
    pose proof (nonneg_count _ c u Hw). lia.
  - destruct (reset1_spec E c u w) as ([->| ->] & _); [exact Hw|].
    now apply nonneg_after_set.
  - eapply nonneg_ext; [|exact Hw]. apply ban1_warnings.
  - eapply nonneg_ext; [|exact Hw]. apply unban1_warnings.
Qed.

Lemma run1_nonneg E ops w :
  counts_nonneg (data w) -> counts_nonneg (data (fold_left (apply1 E) ops w)).
Proof.
  revert w. induction ops as [|op ops IH]; intros w Hw; cbn; [exact Hw|].
  apply IH. now apply apply1_nonneg.
Qed.

Lemma apply1_monotone E w op chat user :
  op <> ResetWarnings1 chat user ->
  TGBot.get_warnings (data w) chat user
  <= TGBot.get_warnings (data (apply1 E w op)) chat user.
Proof.
  change TGBot.get_warnings with TGBot2.warning_count.
  intros Hop. destruct op as [c i u|c u|c u|c u|c u]; cbn [apply1].
  - apply Z.eq_le_incl. symmetry. apply count_ext, ensure_chat_user_warnings.
  - rewrite increment1_data, count_after_set. case_decide as Hk; [|lia].
    destruct Hk as [Hc Hu]. rewrite (count_same_keys _ _ _ _ _ Hc Hu). lia.
  - destruct (reset1_spec E c u w) as ([->| ->] & _); [lia|].
    rewrite count_after_set. case_decide as Hk; [|lia].
    destruct Hk as [Hc%str_inj Hu%str_inj]. congruence.
  - apply Z.eq_le_incl. symmetry. apply count_ext, ban1_warnings.
  - apply Z.eq_le_incl. symmetry. apply count_ext, unban1_warnings.
Qed.

Lemma default_nonneg2 : counts_nonneg TGBot2.DEFAULT_DATA.
Proof. intros ck m uk n. cbn. now rewrite lookup_empty. Qed.

(** C8.  The stored warning count of a pair is never negative, and no
    operation of the store lowers it, except the reset of that pair, which
    makes it 0.  Both variants. *)
Theorem C8_warning_count_monotone (E : Env) (chat user : Z) :
  (counts_nonneg TGBot2.DEFAULT_DATA /\ counts_nonneg TGBot.DEFAULT_DATA)
  /\ (forall w ops,
        counts_nonneg (data w) ->
        0 <= TGBot2.warning_count (data (fold_left (apply2 E) ops w)) chat user)
  /\ (forall w op,
        op <> ResetWarnings2 chat user ->
        TGBot2.warning_count (data w) chat user
        <= TGBot2.warning_count (data (apply2 E w op)) chat user)
  /\ (forall w,
        TGBot2.warning_count
          (data (apply2 E w (ResetWarnings2 chat user))) chat user = 0)
  /\ (forall w ops,
        counts_nonneg (data w) ->
        0 <= TGBot.get_warnings (data (fold_left (apply1 E) ops w)) chat user)
  /\ (forall w op,
        op <> ResetWarnings1 chat user ->
        TGBot.get_warnings (data w) chat user
        <= TGBot.get_warnings (data (apply1 E w op)) chat user)
  /\ (forall w,
        TGBot.get_warnings
          (data (apply1 E w (ResetWarnings1 chat user))) chat user = 0).
Proof.
  split; [split; exact default_nonneg2|].
  split; [intros w ops Hw; apply nonneg_count, run2_nonneg, Hw|].
  split; [intros w op; apply apply2_monotone|].
  split; [intros w; apply reset2_spec|].
  change TGBot.get_warnings with TGBot2.warning_count.
  split; [intros w ops Hw; apply nonneg_count, run1_nonneg, Hw|].
  split; [intros w op; apply (apply1_monotone E w op)|].
  intros w. apply reset1_spec.
Qed.

Lemma C8_warning_count_monotone_witness :
  0 <= TGBot2.warning_count
         (data (fold_left (apply2 env_ok)
                  [IncrementWarning2 (-1001) 42; ResetWarnings2 (-1001) 42;
                   IncrementWarning2 (-1001) 42]
                  (fresh2 env_ok))) (-1001) 42
  /\ TGBot2.warning_count (data (fresh2 env_ok)) (-1001) 42
     <= TGBot2.warning_count
          (data (apply2 env_ok (fresh2 env_ok) (IncrementWarning2 (-1001) 42)))
          (-1001) 42.
Proof.
  destruct (C8_warning_count_monotone env_ok (-1001) 42)
    as (Hd & Hnn & Hmono & _).
  split.
  - apply Hnn. exact (proj1 Hd).
  - apply Hmono. discriminate.
Defined.

End StoreFacts.

(** ** The moderation handler of the webhook variant *)

Section ModerationFacts.

Lemma get_chat_config_ext (d d' : Data) chat :
  chats_config d' = chats_config d ->
  TGBot2.get_chat_config d' chat = TGBot2.get_chat_config d chat.
Proof. unfold TGBot2.get_chat_config. now intros ->. Qed.

Lemma ban_requests_app chat user tr c ok :
  ban_requests chat user (tr ++ [Called c ok])
  = (ban_requests chat user tr + Nat.b2n (is_ban_request chat user c))%nat.
Proof.
  unfold ban_requests, calls. rewrite flat_map_app. cbn.
  rewrite List.filter_app, length_app. cbn.
  now destruct (is_ban_request chat user c).
Qed.

Lemma ban_requests_ext chat user tr tr' :
  calls tr' = calls tr -> ban_requests chat user tr' = ban_requests chat user tr.
Proof. unfold ban_requests. now intros ->. Qed.



Lemma violates_ext (c c' : Conf) msg :
  banned_words c' = banned_words c -> violates c' msg = violates c msg.
Proof. unfold violates. now intros ->. Qed.




(** C9.  In the webhook variant a chat whose configuration has
    [delete_links] off is not moderated at all: whatever the message says,
    the handler deletes nothing, warns nobody and bans nobody. *)
Theorem C9_delete_links_gates_moderation
    (E : Env) (u : Update) (w : World) (chat : Chat) :
  effective_chat u = Some chat ->
  delete_links (TGBot2.get_chat_config (data w) (chat_id chat)) = false ->
  let w' := TGBot2.message_handler E u w in
  warnings (data w') = warnings (data w)
  /\ banned (data w') = banned (data w)
  /\ calls (trace w') = calls (trace w).
Proof.
  intros Hchat Hoff w'. subst w'. unfold TGBot2.message_handler.
  rewrite Hchat.
  destruct (effective_message u) as [msg|]; [|now repeat split].
  destruct (effective_user u) as [user|]; [|now repeat split].
  destruct (register2_frame E user (Some (chat_id chat)) w)
    as (Hw & Hb & Hc & _ & Hcalls).
  set (w1 := TGBot2.ensure_user_registered E user (Some (chat_id chat)) w) in *.
  rewrite (get_chat_config_ext (data w) (data w1)) by exact Hc.
  rewrite Hoff. cbn [andb].
  destruct (is_group chat); now repeat split.
Qed.

Lemma C9_delete_links_gates_moderation_witness :
  let u := incoming bob a_group (text_message 7 "badword1 http://example.com") in
  let w' := TGBot2.message_handler env_ok u links_allowed in
  warnings (data w') = warnings (data links_allowed)
  /\ banned (data w') = banned (data links_allowed)
  /\ calls (trace w') = calls (trace links_allowed).
Proof.
  apply (C9_delete_links_gates_moderation env_ok
           (incoming bob a_group (text_message 7 "badword1 http://example.com"))
           links_allowed a_group); reflexivity.
Defined.

End ModerationFacts.

(** ** The policy store of the webhook variant *)

Section PolicyFacts.

Lemma get_chat_config_unset (d : Data) (chat : Z) :
  chats_config d !! Py.str chat = None ->
  TGBot2.get_chat_config d chat
  = {| delete_links := true; warn_limit := 3; ban_on_limit := true;
       banned_words := TGBot2.GLOBAL_BANNED_WORDS |}.
Proof.
  intros H. unfold TGBot2.get_chat_config. rewrite H. cbn.
  reflexivity.
Qed.

Lemma global_words_effective (d : Data) (chat : Z) :
  TGBot2.GLOBAL_BANNED_WORDS ⊆ banned_words (TGBot2.get_chat_config d chat).
Proof. unfold TGBot2.get_chat_config. cbn. apply union_subseteq_r. Qed.

Lemma union_absorb (X G : gset string) : G ⊆ X -> X ∪ G = X.
Proof. intros H. rewrite (comm_L (∪)). now apply subseteq_union_1_L. Qed.

(** What the next read returns after [/setconfig]: the fields the loop
    computed, with the global banned words united in again. *)
Lemma setconfig_then_read (E : Env) (c : Command) (w : World) :
  TGBot2.is_admin E (user_id (cmd_user c)) = true ->
  is_private (cmd_chat c) = false ->
  cmd_args c <> [] ->
  let conf :=
    fold_left TGBot2.apply_token (cmd_args c)
      (TGBot2.get_chat_config (data w) (chat_id (cmd_chat c))) in
  chats_config (data (TGBot2.cmd_setconfig E c w))
  = <[Py.str (chat_id (cmd_chat c)) := TGBot2.store_conf conf]>
      (chats_config (data w))
  /\ TGBot2.get_chat_config (data (TGBot2.cmd_setconfig E c w))
       (chat_id (cmd_chat c))
     = {| delete_links := delete_links conf;
          warn_limit := warn_limit conf;
          ban_on_limit := ban_on_limit conf;
          banned_words := banned_words conf ∪ TGBot2.GLOBAL_BANNED_WORDS |}.
Proof.
  intros Ha Hp Hargs conf.
  assert (chats_config (data (TGBot2.cmd_setconfig E c w))
          = <[Py.str (chat_id (cmd_chat c)) := TGBot2.store_conf conf]>
              (chats_config (data w))) as Hcfg.
  { unfold TGBot2.cmd_setconfig. rewrite Ha, Hp. cbn [negb].
    destruct (cmd_args c) as [|a args] eqn:Hc; [done|]. reflexivity. }
  split; [exact Hcfg|].
  unfold TGBot2.get_chat_config at 1. rewrite Hcfg, lookup_insert_eq. cbn.
  f_equal. now rewrite list_to_set_elements_L.
Qed.

Lemma setconfig_other_chat (E : Env) (c : Command) (w : World) (chat' : Z) :
  chat' <> chat_id (cmd_chat c) ->
  TGBot2.get_chat_config (data (TGBot2.cmd_setconfig E c w)) chat'
  = TGBot2.get_chat_config (data w) chat'.
Proof.
  intros Hne. unfold TGBot2.cmd_setconfig.
  destruct (negb _); [reflexivity|].
  destruct (is_private _); [reflexivity|].
  destruct (cmd_args c); [reflexivity|].
  unfold TGBot2.get_chat_config at 1. cbn.
  rewrite lookup_insert_ne; [reflexivity|]. now apply str_ne.
Qed.

Ltac token_cases :=
  unfold TGBot2.apply_token, names in *;
  repeat match goal with H : Py.startswith _ _ = false |- _ => rewrite H end;
  cbn [andb];
  repeat (case_match; try reflexivity; try congruence).

Lemma fold_delete_links (args : list string) (conf : Conf) :
  Forall (fun t => names "delete_links=" t = false) args ->
  delete_links (fold_left TGBot2.apply_token args conf) = delete_links conf.
Proof.
  revert conf. induction args as [|t args IH]; intros conf Hall; [reflexivity|].
  apply Forall_cons in Hall as [Ht Hall]. cbn. rewrite IH by exact Hall.
  token_cases.
Qed.

Lemma fold_warn_limit (args : list string) (conf : Conf) :
  Forall (fun t => names "warn_limit=" t = false) args ->
  warn_limit (fold_left TGBot2.apply_token args conf) = warn_limit conf.
Proof.
  revert conf. induction args as [|t args IH]; intros conf Hall; [reflexivity|].
  apply Forall_cons in Hall as [Ht Hall]. cbn. rewrite IH by exact Hall.
  token_cases.
Qed.

Lemma fold_ban_on_limit (args : list string) (conf : Conf) :
  Forall (fun t => names "ban_on_limit=" t = false) args ->
  ban_on_limit (fold_left TGBot2.apply_token args conf) = ban_on_limit conf.
Proof.
  revert conf. induction args as [|t args IH]; intros conf Hall; [reflexivity|].
  apply Forall_cons in Hall as [Ht Hall]. cbn. rewrite IH by exact Hall.
  token_cases.
Qed.

Lemma fold_banned_words (args : list string) (conf : Conf) :
  Forall (fun t => names "add_banned=" t = false
                   /\ names "remove_banned=" t = false) args ->
  banned_words (fold_left TGBot2.apply_token args conf) = banned_words conf.
Proof.
  revert conf. induction args as [|t args IH]; intros conf Hall; [reflexivity|].
  apply Forall_cons in Hall as [[Ht Ht'] Hall]. cbn. rewrite IH by exact Hall.
  token_cases.
Qed.

Lemma add_banned_foo (conf : Conf) :
  TGBot2.apply_token conf "add_banned=foo"
  = mkConf (delete_links conf) (warn_limit conf) (ban_on_limit conf)
      ({[ "foo" ]} ∪ banned_words conf).
Proof. reflexivity. Qed.

(** C7.  A chat with no stored configuration reads as the defaults
    (limit 3, link deletion on, ban at the limit on, the global banned
    words); after [/setconfig add_banned=foo] the effective banned words
    are [foo] and what was effective before, so [foo] and the global words
    for a chat that had no configuration; and an update changes only the
    fields its tokens name, in that chat only. *)
Theorem C7_policy_defaults_and_partial_update
    (E : Env) (c : Command) (w : World) :
  TGBot2.is_admin E (user_id (cmd_user c)) = true ->
  is_private (cmd_chat c) = false ->
  cmd_args c <> [] ->
  let chat := chat_id (cmd_chat c) in
  let before := TGBot2.get_chat_config (data w) chat in
  let after := TGBot2.get_chat_config (data (TGBot2.cmd_setconfig E c w)) chat in
  (forall d chat',
      chats_config d !! Py.str chat' = None ->
      TGBot2.get_chat_config d chat'
      = {| delete_links := true; warn_limit := 3; ban_on_limit := true;
           banned_words := TGBot2.GLOBAL_BANNED_WORDS |})
  /\ (cmd_args c = ["add_banned=foo"] ->
      banned_words after = {[ "foo" ]} ∪ banned_words before
      /\ (chats_config (data w) !! Py.str chat = None ->
          banned_words after = {[ "foo" ]} ∪ TGBot2.GLOBAL_BANNED_WORDS))
  /\ (Forall (fun t => names "delete_links=" t = false) (cmd_args c) ->
      delete_links after = delete_links before)
  /\ (Forall (fun t => names "warn_limit=" t = false) (cmd_args c) ->
      warn_limit after = warn_limit before)
  /\ (Forall (fun t => names "ban_on_limit=" t = false) (cmd_args c) ->
      ban_on_limit after = ban_on_limit before)
  /\ (Forall (fun t => names "add_banned=" t = false
                       /\ names "remove_banned=" t = false) (cmd_args c) ->
      banned_words after = banned_words before)
  /\ (forall chat',
        chat' <> chat ->
        TGBot2.get_chat_config (data (TGBot2.cmd_setconfig E c w)) chat'
        = TGBot2.get_chat_config (data w) chat').
Proof.
  intros Ha Hp Hargs chat before after.
  destruct (setconfig_then_read E c w Ha Hp Hargs) as (_ & Hread).
  fold chat before after in Hread.
  pose proof (global_words_effective (data w) chat) as Hglob. fold before in Hglob.
  split; [exact get_chat_config_unset|].
  split; [|split; [|split; [|split; [|split]]]].
  - intros Hfoo. rewrite Hfoo in Hread. cbn [fold_left] in Hread.
    rewrite add_banned_foo in Hread. rewrite Hread. cbn [banned_words].
    assert (({[ "foo" ]} ∪ banned_words before) ∪ TGBot2.GLOBAL_BANNED_WORDS
            = {[ "foo" ]} ∪ banned_words before) as ->.
    { apply union_absorb. etransitivity; [exact Hglob|].
      apply union_subseteq_r. }
    split; [reflexivity|].
    intros Hunset. unfold before.
    now rewrite (get_chat_config_unset _ _ Hunset).
  - intros Hall. rewrite Hread. cbn [delete_links].
    now apply fold_delete_links.
  - intros Hall. rewrite Hread. cbn [warn_limit]. now apply fold_warn_limit.
  - intros Hall. rewrite Hread. cbn [ban_on_limit].
    now apply fold_ban_on_limit.
  - intros Hall. rewrite Hread. cbn [banned_words].
    rewrite fold_banned_words by exact Hall. now apply union_absorb.
  - intros chat' Hne. now apply setconfig_other_chat.
Qed.

Lemma C7_policy_defaults_and_partial_update_witness :
  let chat := -1001 in
  let w := fresh2 env_ok in
  let w' := TGBot2.cmd_setconfig env_ok (command admin ["add_banned=foo"]) w in
  banned_words (TGBot2.get_chat_config (data w') chat)
  = {[ "foo" ]} ∪ TGBot2.GLOBAL_BANNED_WORDS
  /\ warn_limit (TGBot2.get_chat_config (data w') chat) = 3.
Proof.
  destruct (C7_policy_defaults_and_partial_update env_ok
              (command admin ["add_banned=foo"]) (fresh2 env_ok))
    as (Hdef & Hfoo & _ & Hlimit & _); [reflexivity | reflexivity | discriminate |].
  split.
  - now apply Hfoo.
  - exact (Hlimit ltac:(repeat constructor)).
Defined.

Lemma remove_global_word (conf : Conf) (word : string) :
  word ∈ TGBot2.GLOBAL_BANNED_WORDS ->
  TGBot2.apply_token conf ("remove_banned=" +:+ word)
  = mkConf (delete_links conf) (warn_limit conf) (ban_on_limit conf)
      (banned_words conf ∖ {[ word ]}).
Proof.
  unfold TGBot2.GLOBAL_BANNED_WORDS.
  rewrite !elem_of_union, !elem_of_singleton.
  intros [[-> | ->] | ->]; reflexivity.
Qed.

(** C10.  The effective banned words of every chat, in every state,
    include the global ones: [/setconfig remove_banned=w] for a global
    word [w] does take [w] out of the stored list, and the next read of the
    policy returns [w] all the same, because the read unites the global
    words with what is stored. *)
Theorem C10_global_words_cannot_be_removed
    (E : Env) (c : Command) (w : World) (word : string) :
  TGBot2.is_admin E (user_id (cmd_user c)) = true ->
  is_private (cmd_chat c) = false ->
  word ∈ TGBot2.GLOBAL_BANNED_WORDS ->
  cmd_args c = ["remove_banned=" +:+ word] ->
  let chat := chat_id (cmd_chat c) in
  let w' := TGBot2.cmd_setconfig E c w in
  (forall d chat',
      TGBot2.GLOBAL_BANNED_WORDS
      ⊆ banned_words (TGBot2.get_chat_config d chat'))
  /\ (exists stored ws,
        chats_config (data w') !! Py.str chat = Some stored
        /\ sc_banned_words stored = Some ws
        /\ word ∉ ws)
  /\ word ∈ banned_words (TGBot2.get_chat_config (data w') chat).
Proof.
  intros Ha Hp Hword Hargs chat w'.
  split; [exact global_words_effective|]. split.
  - destruct (setconfig_then_read E c w Ha Hp) as (Hcfg & _).
    { rewrite Hargs. discriminate. }
    fold chat w' in Hcfg. rewrite Hargs in Hcfg. cbn [fold_left] in Hcfg.
    rewrite remove_global_word in Hcfg by exact Hword.
    eexists _, _. rewrite Hcfg, lookup_insert_eq.
    split; [reflexivity|]. split; [reflexivity|]. cbn.
    rewrite elem_of_elements, elem_of_difference, elem_of_singleton.
    now intros [_ H].
  - now apply (global_words_effective (data w') chat).
Qed.

Lemma C10_global_words_cannot_be_removed_witness :
  let w' := TGBot2.cmd_setconfig env_ok
              (command admin ["remove_banned=badword1"]) (fresh2 env_ok) in
  "badword1" ∈ banned_words (TGBot2.get_chat_config (data w') (-1001)).
Proof.
  apply (C10_global_words_cannot_be_removed env_ok
           (command admin ["remove_banned=badword1"]) (fresh2 env_ok)
           "badword1"); reflexivity.
Defined.

End PolicyFacts.

(** ** Start-up, the ban ledger and the broadcast *)

Section VariantFacts.

(** The webhook variant never raises out of [load_data]: a file that
    cannot be read or parsed gives the empty default structure, and a
    missing file is created with it when the write goes through. *)
Lemma load_data2_falls_back (E : Env) (tr : list Event) :
  data (TGBot2.load_data E Corrupt tr) = TGBot2.DEFAULT_DATA
  /\ data (TGBot2.load_data E Unreadable tr) = TGBot2.DEFAULT_DATA
  /\ data (TGBot2.load_data E Missing tr) = TGBot2.DEFAULT_DATA
  /\ (disk_write E tr = Written ->
      disk (TGBot2.load_data E Missing tr)
      = Stored (dump true TGBot2.DEFAULT_DATA)).
Proof.
  repeat split. intros Hw. cbn. now rewrite Hw.
Qed.

(** C2, at the input where the polling variant departs from it: a data
    file that exists and cannot be parsed, or cannot be read, makes
    [load_data] of TGBot.py raise; the same files make [load_data] of
    TGBot2.py return the empty default structure.  Both variants create a
    missing file with the default structure when the write succeeds. *)
Theorem C2_polling_load_raises_on_corrupt_file (E : Env) (tr : list Event) :
  fst (TGBot.load_data E Corrupt tr) = Raise JSONDecodeError
  /\ fst (TGBot.load_data E Unreadable tr) = Raise OSError
  /\ data (TGBot2.load_data E Corrupt tr) = TGBot2.DEFAULT_DATA
  /\ data (TGBot2.load_data E Unreadable tr) = TGBot2.DEFAULT_DATA
  /\ (disk_write E tr = Written ->
      TGBot.load_data E Missing tr
      = (Ok (dump false TGBot.DEFAULT_DATA),
         (Stored (dump false TGBot.DEFAULT_DATA), tr ++ [Wrote Written]))
      /\ data (TGBot2.load_data E Missing tr) = TGBot2.DEFAULT_DATA
      /\ disk (TGBot2.load_data E Missing tr)
         = Stored (dump true TGBot2.DEFAULT_DATA)).
Proof.
  split; [reflexivity|]. split; [reflexivity|].
  split; [reflexivity|]. split; [reflexivity|].
  intros Hw. split; [|split].
  - unfold TGBot.load_data, TGBot.save_data. now rewrite Hw.
  - reflexivity.
  - now apply load_data2_falls_back.
Qed.

Lemma C2_polling_load_raises_on_corrupt_file_witness :
  TGBot.load_data env_ok Missing []
  = (Ok (dump false TGBot.DEFAULT_DATA),
     (Stored (dump false TGBot.DEFAULT_DATA), [Wrote Written])).
Proof.
  apply (C2_polling_load_raises_on_corrupt_file env_ok []). reflexivity.
Defined.

(** *** The ban ledger *)

Lemma mem_spec (x : Z) (l : list Z) : mem x l = true <-> x ∈ l.
Proof.
  unfold mem. rewrite existsb_exists. split.
  - intros (y & Hy & ->%Z.eqb_eq). now apply list_elem_of_In.
  - intros H. exists x. split; [now apply list_elem_of_In | apply Z.eqb_refl].
Qed.

Lemma remove_first_gone (x : Z) (l : list Z) :
  NoDup l -> mem x (remove_first x l) = false.
Proof.
  intros Hl. apply not_true_is_false. rewrite mem_spec.
  induction Hl as [|y l Hy Hl IH]; cbn.
  - inversion 1.
  - destruct (Z.eqb_spec x y) as [->|Hne]; [exact Hy|].
    rewrite elem_of_cons. intros [?|?]; [congruence | now apply IH].
Qed.

(** In the polling variant [unban_user_record] takes the pair out of the
    ledger (which [ban_user_record] keeps free of duplicates). *)
Lemma unban1_clears (E : Env) (chat user : Z) (w : World) :
  NoDup (default [] (banned (data w) !! Py.str chat)) ->
  TGBot.is_user_banned
    (data (world_of (TGBot.unban_user_record E chat user w))) chat user
  = false.
Proof.
  intros Hnd. unfold TGBot.unban_user_record, TGBot.is_user_banned.
  destruct (banned (data w) !! Py.str chat) as [l|] eqn:Hl; cbn in Hnd.
  - destruct (mem user l) eqn:Hm.
    + rewrite persist1_data. cbn. rewrite lookup_insert_eq. cbn.
      now apply remove_first_gone.
    + cbn. now rewrite Hl.
  - cbn. now rewrite Hl.
Qed.

(** ... and does nothing, and raises nothing, for a pair that is not in it. *)
Lemma unban1_noop (E : Env) (chat user : Z) (w : World) :
  TGBot.is_user_banned (data w) chat user = false ->
  TGBot.unban_user_record E chat user w = Done tt w.
Proof.
  unfold TGBot.unban_user_record, TGBot.is_user_banned.
  destruct (banned (data w) !! Py.str chat) as [l|]; [|reflexivity].
  intros H. change (mem user l = false) in H. now rewrite H.
Qed.

Lemma cmd_unban2_data (E : Env) (c : Command) (w : World) :
  data (TGBot2.cmd_unban E c w) = data w.
Proof.
  unfold TGBot2.cmd_unban, call, request.
  destruct (negb _); [reflexivity|].
  destruct (cmd_args c) as [|a args]; [reflexivity|].
  destruct (Py.isdigit a); [|reflexivity].
  destruct (Py.int a) as [target|]; [|reflexivity].
  cbn [fst snd with_trace data trace].
  destruct (gateway E (trace w) _); [|reflexivity].
  destruct (gateway E _ _); reflexivity.
Qed.

(** C3, at the input where the webhook variant departs from it: [/unban]
    of TGBot2.py asks the gateway to unban and never touches the ledger,
    so a pair that was banned stays in it; [/unban] of TGBot.py clears the
    entry. *)
Theorem C3_webhook_unban_keeps_ledger :
  (forall E c w chat user,
      TGBot2.is_user_banned (data (TGBot2.cmd_unban E c w)) chat user
      = TGBot2.is_user_banned (data w) chat user)
  /\ TGBot2.is_user_banned (data ledger_world) (-1001) 42 = true
  /\ calls (trace (TGBot2.cmd_unban env_ok (command admin ["42"]) ledger_world))
     = [UnbanChatMember (-1001) 42; ReplyText (-1001) UserUnbanned]
  /\ TGBot2.is_user_banned
       (data (TGBot2.cmd_unban env_ok (command admin ["42"]) ledger_world))
       (-1001) 42 = true
  /\ TGBot.is_user_banned
       (data (world_of (TGBot.cmd_unban env_ok (command admin1 ["42"]) ledger_world)))
       (-1001) 42 = false.
Proof.
  split; [intros; now rewrite cmd_unban2_data|].
  repeat split; vm_compute; reflexivity.
Qed.

(** *** The broadcast *)

Lemma attempts_app (tr : list Event) (c : Call) (ok : bool) (r : Z) :
  delivers_to c r -> attempts (tr ++ [Called c ok]) = attempts tr ++ [r].
Proof.
  intros Hc. unfold attempts, calls. rewrite !flat_map_app. cbn.
  destruct Hc as [(b & ->)|(f & m & ->)]; reflexivity.
Qed.

Lemma failures_app (tr : list Event) (c : Call) (ok : bool) (r : Z) :
  delivers_to c r ->
  failures (tr ++ [Called c ok])
  = (failures tr + Nat.b2n (negb ok))%nat.
Proof.
  intros Hc. unfold failures. rewrite List.filter_app, length_app.
  destruct Hc as [(b & ->)|(f & m & ->)]; destruct ok; reflexivity.
Qed.

(** The fan-out loop: every recipient is tried once, in order, whatever
    happened to the ones before; each try adds one to [sent] or to
    [failed]; [failed] grows by the requests that raised and by the
    recipients that could not be computed. *)
Lemma send_loop_spec (E : Env) (mk : Z -> Call) (rcpts : list (option Z)) :
  (forall r, delivers_to (mk r) r) ->
  forall sent failed tr,
    let '(sent', failed', tr') := send_loop E mk rcpts (sent, failed, tr) in
    sent' + failed' = sent + failed + Z.of_nat (length rcpts)
    /\ attempts tr' = attempts tr ++ somes rcpts
    /\ failed'
       = failed + Z.of_nat (failures tr' - failures tr)
         + Z.of_nat (nones rcpts)
    /\ (failures tr <= failures tr')%nat
    /\ calls tr' = calls tr ++ map mk (somes rcpts).
Proof.
  intros Hmk. induction rcpts as [|r rcpts IH]; intros sent failed tr.
  - cbn. rewrite !app_nil_r. repeat split; lia.
  - cbn [send_loop]. destruct r as [rid|].
    + unfold request.
      pose proof (attempts_app tr (mk rid) (gateway E tr (mk rid)) rid (Hmk rid))
        as Ha.
      pose proof (failures_app tr (mk rid) (gateway E tr (mk rid)) rid (Hmk rid))
        as Hf.
      assert (calls (tr ++ [Called (mk rid) (gateway E tr (mk rid))])
              = calls tr ++ [mk rid]) as Hc.
      { unfold calls. now rewrite flat_map_app. }
      destruct (gateway E tr (mk rid)); cbn [Nat.b2n negb] in Hf.
      * specialize (IH (sent + 1) failed
                       (tr ++ [Called (mk rid) true])).
        destruct (send_loop E mk rcpts _) as [[s' f'] tr'].
        destruct IH as (H1 & H2 & H3 & H4 & H5).
        rewrite Ha in H2. rewrite Hf in H3, H4. rewrite Hc in H5.
        cbn [somes omap length nones List.filter is_some negb map].
        fold (somes rcpts). fold (nones rcpts).
        rewrite <- !app_assoc in H2, H5. cbn in H2, H5.
        repeat split; try assumption; lia.
      * specialize (IH sent (failed + 1)
                       (tr ++ [Called (mk rid) false])).
        destruct (send_loop E mk rcpts _) as [[s' f'] tr'].
        destruct IH as (H1 & H2 & H3 & H4 & H5).
        rewrite Ha in H2. rewrite Hf in H3, H4. rewrite Hc in H5.
        cbn [somes omap length nones List.filter is_some negb map].
        fold (somes rcpts). fold (nones rcpts).
        rewrite <- !app_assoc in H2, H5. cbn in H2, H5.
        repeat split; try assumption; lia.
    + specialize (IH sent (failed + 1) tr).
      destruct (send_loop E mk rcpts _) as [[s' f'] tr'].
      destruct IH as (H1 & H2 & H3 & H4 & H5).
      cbn [somes omap length nones List.filter is_some negb map].
      fold (somes rcpts). fold (nones rcpts).
      repeat split; try assumption; cbn [length]; lia.
Qed.

Lemma somes_map_Some (l : list Z) : somes (map Some l) = l.
Proof. induction l as [|x l IH]; cbn; [reflexivity | now f_equal]. Qed.

Lemma nones_map_Some (l : list Z) : nones (map Some l) = 0%nat.
Proof. induction l as [|x l IH]; [reflexivity | exact IH]. Qed.

Lemma somes_map_int_str (ids : list Z) :
  somes (map Py.int (map Py.str ids)) = ids
  /\ nones (map Py.int (map Py.str ids)) = 0%nat.
Proof.
  induction ids as [|x ids [IH1 IH2]]; [now split|].
  cbn [map]. rewrite int_str.
  change (somes (Some x :: map Py.int (map Py.str ids)))
    with (x :: somes (map Py.int (map Py.str ids))).
  change (nones (Some x :: map Py.int (map Py.str ids)))
    with (nones (map Py.int (map Py.str ids))).
  now rewrite IH1.
Qed.

Lemma calls_snoc (tr : list Event) (c : Call) (ok : bool) :
  calls (tr ++ [Called c ok]) = calls tr ++ [c].
Proof. unfold calls. now rewrite flat_map_app. Qed.

Lemma attempts_reply (tr : list Event) chat body ok :
  attempts (tr ++ [Called (ReplyText chat body) ok]) = attempts tr.
Proof.
  unfold attempts. rewrite calls_snoc, flat_map_app. cbn. apply app_nil_r.
Qed.

Lemma failures_reply (tr : list Event) chat body ok :
  failures (tr ++ [Called (ReplyText chat body) ok]) = failures tr.
Proof.
  unfold failures. rewrite List.filter_app, length_app. cbn. lia.
Qed.

(** The broadcast of the webhook variant, in both of its modes: the
    registered users, then the configured channels, each tried once; the
    report adds up to the number of recipients, and [failed] counts the
    requests that raised (and the user keys that are no integers, of which
    a roster built by [ensure_user_registered] has none). *)
Lemma broadcast2_counts (E : Env) (c : Command) (w : World) :
  TGBot2.is_admin E (user_id (cmd_user c)) = true ->
  let w' := TGBot2.cmd_broadcast E c w in
  let keys := map fst (users (data w)) in
  exists sent failed,
    attempts (trace w')
    = attempts (trace w) ++ somes (map Py.int keys) ++ channels (data w)
    /\ last (calls (trace w'))
       = Some (ReplyText (chat_id (cmd_chat c)) (BroadcastReport sent failed))
    /\ sent + failed
       = Z.of_nat (length (users (data w)) + length (channels (data w)))
    /\ failed
       = Z.of_nat (failures (trace w') - failures (trace w))
         + Z.of_nat (nones (map Py.int keys)).
Proof.
  intros Ha w' keys. subst w'. unfold TGBot2.cmd_broadcast.
  rewrite Ha. cbn [negb]. fold keys.
  set (mk := match reply_to_message (cmd_message c) with
             | Some _ => _ | None => _ end).
  assert (forall r, delivers_to (mk r) r) as Hmk.
  { intros r. unfold mk.
    destruct (reply_to_message (cmd_message c)) as [f|];
      [destruct (cmd_args c)|]; unfold delivers_to; eauto. }
  pose proof (send_loop_spec E mk (map Py.int keys) Hmk 0 0 (trace w)) as H1.
  destruct (send_loop E mk (map Py.int keys) (0, 0, trace w))
    as [[s1 f1] tr1].
  pose proof (send_loop_spec E mk (map Some (channels (data w))) Hmk s1 f1 tr1)
    as H2.
  destruct (send_loop E mk (map Some (channels (data w))) (s1, f1, tr1))
    as [[s2 f2] tr2].
  destruct H1 as (A1 & A2 & A3 & A4 & _).
  destruct H2 as (B1 & B2 & B3 & B4 & _).
  rewrite somes_map_Some in B2. rewrite nones_map_Some in B3.
  rewrite !length_map in *. unfold keys in A1. rewrite length_map in A1.
  exists s2, f2. unfold call, request. cbn [snd trace with_trace].
  repeat split.
  - rewrite attempts_reply, B2, A2. now rewrite app_assoc.
  - rewrite calls_snoc. apply last_snoc.
  - lia.
  - rewrite failures_reply. lia.
Qed.

(** C4, at the input where the polling variant departs from it: a
    [/broadcast] sent as a reply, with a roster of one user and one
    channel.  TGBot.py forwards to the user and reports one recipient; the
    channel is never tried.  Its text mode and both modes of TGBot2.py try
    the channel too.  With five users of which two fail, every path tries
    all five and reports 3 sent, 2 failed. *)
Theorem C4_polling_forward_skips_channels :
  let forward1 :=
    world_of (TGBot.cmd_broadcast env_ok (forward_command admin1) roster_world) in
  let text1 :=
    world_of (TGBot.cmd_broadcast env_ok (command admin1 ["hello"]) roster_world) in
  let forward2 := TGBot2.cmd_broadcast env_ok (forward_command admin) roster_world in
  let text2 := TGBot2.cmd_broadcast env_ok (command admin ["hello"]) roster_world in
  calls (trace forward1)
  = [ForwardMessage 7 (-1001) 900; ReplyText (-1001) (BroadcastReport 1 0)]
  /\ attempts (trace forward1) = [7]
  /\ attempts (trace text1) = [7; -1002003]
  /\ attempts (trace forward2) = [7; -1002003]
  /\ attempts (trace text2) = [7; -1002003]
  /\ calls (trace (world_of (TGBot.cmd_broadcast env_two_fail
                               (command admin1 ["hello"]) five_users)))
     = map (fun r => SendMessage r (Text "hello")) [1; 2; 3; 4; 5]
       ++ [ReplyText (-1001) (BroadcastReport 3 2)]
  /\ calls (trace (TGBot2.cmd_broadcast env_two_fail
                     (command admin ["hello"]) five_users))
     = map (fun r => SendMessage r (Text "hello")) [1; 2; 3; 4; 5]
       ++ [ReplyText (-1001) (BroadcastReport 3 2)].
Proof. vm_compute. repeat split; reflexivity. Qed.

End VariantFacts.

(** ** The banned words are kept in lower case *)

Section LowercaseFacts.

Lemma lower_char_idem (c : ascii) :
  Py.lower_char (Py.lower_char c) = Py.lower_char c.
Proof. destruct c as [[] [] [] [] [] [] [] []]; reflexivity. Qed.

Lemma lower_idem (s : string) : lowercase (Py.lower s).
Proof.
  unfold lowercase. induction s as [|c s IH]; [reflexivity|].
  cbn. now rewrite lower_char_idem, IH.
Qed.

Lemma global_words_lowercase :
  set_Forall lowercase TGBot2.GLOBAL_BANNED_WORDS.
Proof.
  intros w. unfold TGBot2.GLOBAL_BANNED_WORDS.
  rewrite !elem_of_union, !elem_of_singleton.
  intros [[-> | ->] | ->]; reflexivity.
Qed.

(** Whatever [/setconfig] adds went through [.lower()]. *)
Lemma apply_token_lowercase (conf : Conf) (token : string) :
  set_Forall lowercase (banned_words conf) ->
  set_Forall lowercase (banned_words (TGBot2.apply_token conf token)).
Proof.
  intros H. unfold TGBot2.apply_token.
  repeat case_match; cbn [banned_words]; try exact H.
  - intros w [->%elem_of_singleton | Hw]%elem_of_union;
      [apply lower_idem | now apply H].
  - intros w [Hw _]%elem_of_difference. now apply H.
Qed.

Lemma fold_tokens_lowercase (args : list string) (conf : Conf) :
  set_Forall lowercase (banned_words conf) ->
  set_Forall lowercase (banned_words (fold_left TGBot2.apply_token args conf)).
Proof.
  revert conf. induction args as [|t args IH]; intros conf H; [exact H|].
  cbn. apply IH. now apply apply_token_lowercase.
Qed.

Lemma effective_words_lowercase (d : Data) (chat : Z) :
  stored_lowercase d ->
  set_Forall lowercase (banned_words (TGBot2.get_chat_config d chat)).
Proof.
  intros Hd w. unfold TGBot2.get_chat_config. cbn [banned_words].
  rewrite elem_of_union, elem_of_list_to_set.
  intros [Hw | Hw]; [|now apply global_words_lowercase].
  destruct (chats_config d !! Py.str chat) as [conf|] eqn:Hc; cbn in Hw.
  - destruct (sc_banned_words conf) as [ws|] eqn:Hws; cbn in Hw.
    + specialize (Hd _ _ _ Hc Hws). rewrite Forall_forall in Hd. now apply Hd.
    + inversion Hw.
  - inversion Hw.
Qed.

(** So the words the moderation handler matches against are in lower case
    in every store that [/setconfig] has built. *)
Lemma setconfig_keeps_lowercase (E : Env) (c : Command) (w : World) :
  stored_lowercase (data w) ->
  stored_lowercase (data (TGBot2.cmd_setconfig E c w)).
Proof.
  intros Hd. unfold TGBot2.cmd_setconfig.
  destruct (negb _); [exact Hd|].
  destruct (is_private _); [exact Hd|].
  destruct (cmd_args c) as [|a args] eqn:Hargs; [exact Hd|].
  intros key conf ws. cbn.
  destruct (decide (Py.str (chat_id (cmd_chat c)) = key)) as [<-|Hne].
  - rewrite lookup_insert_eq. intros [= <-]. cbn. intros [= <-].
    apply Forall_forall. intros x Hx%elem_of_elements. revert x Hx.
    apply (fold_tokens_lowercase (a :: args)).
    now apply effective_words_lowercase.
  - rewrite lookup_insert_ne by exact Hne. apply Hd.
Qed.

Lemma default_stored_lowercase : stored_lowercase TGBot2.DEFAULT_DATA.
Proof. intros key conf ws. cbn. now rewrite lookup_empty. Qed.

End LowercaseFacts.

(** ** The polling variant, side by side *)

Section PollingExamples.

(** The classifier of TGBot.py has no normalisation step: it finds the
    scheme URL and misses the bracketed dot. *)
Example polling_classifier_examples :
  TGBot.contains_link_or_banned "visit http://example.com now" = true
  /\ TGBot.contains_link_or_banned "visit example[.]com now" = false
  /\ TGBot.contains_link_or_banned "just chatting" = false
  /\ TGBot.contains_link_or_banned "some BadWord1 here" = true.
Proof. vm_compute. repeat split; reflexivity. Qed.

(** The handler of TGBot.py tests [new_count >= WARN_LIMIT] as well: four
    violations, two ban requests. *)
Example polling_bans_again :
  let run := fun k =>
    moderate1 env_ban_refused bob a_group
      (map link_message (take k [1; 2; 3; 4])) fresh1 in
  ban_requests (-1001) 42 (trace (run 2%nat)) = 0%nat
  /\ ban_requests (-1001) 42 (trace (run 3%nat)) = 1%nat
  /\ TGBot.get_warnings (data (run 4%nat)) (-1001) 42 = 4
  /\ ban_requests (-1001) 42 (trace (run 4%nat)) = 2%nat.
Proof. vm_compute. repeat split; reflexivity. Qed.

End PollingExamples.

(** * Further properties of the code *)

(** ** The user roster *)

Section RosterFacts.

Lemma dict_get_set_eq {V : Type} (k : string) (v : V) (l : list (string * V)) :
  dict_get k (dict_set k v l) = Some v.
Proof.
  induction l as [|[k' v'] l IH]; cbn.
  - now rewrite String.eqb_refl.
  - destruct (String.eqb k k') eqn:Hk; cbn; rewrite ?String.eqb_refl, ?Hk; auto.
Qed.

Lemma dict_get_set_ne {V : Type} (k k' : string) (v : V) (l : list (string * V)) :
  k <> k' -> dict_get k' (dict_set k v l) = dict_get k' l.
Proof.
  intros Hne. induction l as [|[k0 v0] l IH]; cbn.
  - destruct (String.eqb_spec k' k); [congruence | reflexivity].
  - destruct (String.eqb_spec k k0) as [<-|Hk0]; cbn.
    + destruct (String.eqb_spec k' k); [congruence | reflexivity].
    + destruct (String.eqb_spec k' k0); [reflexivity | exact IH].
Qed.

Lemma dict_set_keys {V : Type} (k : string) (v : V) (l : list (string * V)) :
  map fst (dict_set k v l)
  = match dict_get k l with
    | Some _ => map fst l
    | None => map fst l ++ [k]
    end.
Proof.
  induction l as [|[k' v'] l IH]; cbn; [reflexivity|].
  destruct (String.eqb_spec k k') as [<-|Hne]; cbn; [reflexivity|].
  rewrite IH. now destruct (dict_get k l).
Qed.

Lemma dict_get_keys {V : Type} (k : string) (l : list (string * V)) :
  dict_get k l = None <-> k ∉ map fst l.
Proof.
  induction l as [|[k' v'] l IH]; cbn.
  - split; [intros _ H; inversion H | reflexivity].
  - rewrite elem_of_cons. destruct (String.eqb_spec k k') as [<-|Hne].
    + split; [discriminate | intros H; destruct H; now left].
    + rewrite IH. split; [intros H [?|?]; congruence | intros H ?; apply H; now right].
Qed.

(** [ensure_user_registered] with a chat in three steps: find or create the
    entry, then add the chat unless it is there. *)
Lemma register2_users (E : Env) (user : User) (chat : Z) (w : World) :
  let uid := Py.str (user_id user) in
  let fresh := {| first_name := or_empty (user_first_name user);
                  last_name := or_empty (user_last_name user);
                  username := or_empty (user_username user);
                  chats := [] |} in
  let info := default fresh (dict_get uid (users (data w))) in
  let info' := if mem chat (chats info) then info
               else mkUserInfo (first_name info) (last_name info)
                      (username info) (chats info ++ [chat]) in
  let us1 := match dict_get uid (users (data w)) with
             | Some _ => users (data w)
             | None => dict_set uid fresh (users (data w))
             end in
  users (data (TGBot2.ensure_user_registered E user (Some chat) w))
  = if mem chat (chats info) then us1 else dict_set uid info' us1.
Proof.
  intros uid fresh info info' us1. unfold TGBot2.ensure_user_registered.
  fold uid. subst info info' us1.
  destruct (dict_get uid (users (data w))) as [i|] eqn:Hi; cbn [default].
  - rewrite Hi. unfold id. now destruct (mem chat (chats i)).
  - unfold id.
    cbn [TGBot2.persist TGBot2.save_data data with_data with_users users].
    rewrite dict_get_set_eq. reflexivity.
Qed.

Lemma register2_noop (E : Env) (user : User) (chat : Z) (w : World) info :
  dict_get (Py.str (user_id user)) (users (data w)) = Some info ->
  mem chat (chats info) = true ->
  TGBot2.ensure_user_registered E user (Some chat) w = w.
Proof.
  intros Hi Hm. unfold TGBot2.ensure_user_registered. now rewrite Hi, Hi, Hm.
Qed.

Lemma mem_snoc (x : Z) (l : list Z) : mem x (l ++ [x]) = true.
Proof. unfold mem. rewrite existsb_app. cbn. now rewrite Z.eqb_refl, orb_true_r. Qed.

(** A message in a chat registers its sender there, once: the sender is in
    the roster with the chat on the list, and registering again changes
    nothing and writes nothing. *)
Theorem ensure_user_registered_idempotent
    (E : Env) (user : User) (chat : Z) (w : World) :
  let w' := TGBot2.ensure_user_registered E user (Some chat) w in
  (exists info,
      dict_get (Py.str (user_id user)) (users (data w')) = Some info
      /\ mem chat (chats info) = true)
  /\ TGBot2.ensure_user_registered E user (Some chat) w' = w'.
Proof.
  intros w'.
  assert (exists info,
             dict_get (Py.str (user_id user)) (users (data w')) = Some info
             /\ mem chat (chats info) = true) as (info & Hi & Hm).
  { subst w'. rewrite register2_users.
    destruct (dict_get (Py.str (user_id user)) (users (data w))) as [i|] eqn:Hi;
      cbn [default from_option]; unfold id.
    - destruct (mem chat (chats i)) eqn:Hm.
      + now exists i.
      + eexists. rewrite dict_get_set_eq. split; [reflexivity|]. apply mem_snoc.
    - cbn [chats]. change (mem chat []) with false. cbn iota.
      eexists. rewrite dict_get_set_eq. split; [reflexivity|]. apply mem_snoc. }
  split; [now exists info|]. now apply (register2_noop E user chat w' info).
Qed.

Lemma extends_refl info : extends_info info info.
Proof. repeat split. exists []. now rewrite app_nil_r. Qed.

Lemma grows_refl l : roster_grows l l.
Proof.
  repeat split.
  - intros key info H. exists info. split; [exact H | apply extends_refl].
  - exists []. now rewrite app_nil_r.
  - auto.
Qed.

Lemma grows_trans l1 l2 l3 :
  roster_grows l1 l2 -> roster_grows l2 l3 -> roster_grows l1 l3.
Proof.
  intros (A1 & (n1 & B1) & C1) (A2 & (n2 & B2) & C2). repeat split.
  - intros key info H. destruct (A1 _ _ H) as (i2 & H2 & E1 & E2 & E3 & m1 & E4).
    destruct (A2 _ _ H2) as (i3 & H3 & F1 & F2 & F3 & m2 & F4).
    exists i3. split; [exact H3|]. repeat split; try congruence.
    exists (m1 ++ m2). now rewrite F4, E4, app_assoc.
  - exists (n1 ++ n2). now rewrite B2, B1, app_assoc.
  - auto.
Qed.

Lemma grows_add (k : string) (v : UserInfo) l :
  dict_get k l = None -> roster_grows l (dict_set k v l).
Proof.
  intros Hk. repeat split.
  - intros key info H. exists info. split; [|apply extends_refl].
    rewrite dict_get_set_ne; [exact H|]. congruence.
  - exists [k]. now rewrite dict_set_keys, Hk.
  - intros Hnd. rewrite dict_set_keys, Hk. apply NoDup_app. repeat split.
    + exact Hnd.
    + intros x Hx ->%list_elem_of_singleton. now apply dict_get_keys in Hk.
    + apply NoDup_singleton.
Qed.

Lemma grows_extend (k : string) (v v' : UserInfo) l :
  dict_get k l = Some v -> extends_info v v' -> roster_grows l (dict_set k v' l).
Proof.
  intros Hk Hv. repeat split.
  - intros key info H. destruct (String.eqb_spec k key) as [<-|Hne].
    + exists v'. rewrite dict_get_set_eq. split; [reflexivity|]. congruence.
    + exists info. split; [|apply extends_refl]. now rewrite dict_get_set_ne.
  - exists []. now rewrite dict_set_keys, Hk, app_nil_r.
  - now rewrite dict_set_keys, Hk.
Qed.

(** The roster is append-only: registering a user (with or without a chat)
    removes nobody, never changes stored names, only extends chat lists,
    keeps the order of the keys with a new key last, and keeps them free of
    duplicates. *)
Theorem ensure_user_registered_grows
    (E : Env) (user : User) (chat : option Z) (w : World) :
  roster_grows (users (data w))
    (users (data (TGBot2.ensure_user_registered E user chat w))).
Proof.
  unfold TGBot2.ensure_user_registered.
  set (uid := Py.str (user_id user)).
  match goal with |- context [match chat with _ => _ end] =>
    match goal with |- context [data ?x] =>
      match x with
      | match dict_get _ _ with _ => _ end =>
          assert (roster_grows (users (data w)) (users (data x))) as H1;
          [|set (w1 := x) in *]
      end end end.
  { destruct (dict_get uid (users (data w))) eqn:Hi; [apply grows_refl|].
    now apply grows_add. }
  clearbody w1. apply (grows_trans _ _ _ H1).
  destruct chat as [cid|]; [|apply grows_refl].
  destruct (dict_get uid (users (data w1))) as [info|] eqn:Hi; [|apply grows_refl].
  destruct (mem cid (chats info)); [apply grows_refl|].
  apply (grows_extend uid info); [exact Hi|].
  repeat split. now exists [cid].
Qed.

Lemma ensure_user_registered_grows_witness :
  NoDup (map fst (users (data
           (TGBot2.ensure_user_registered env_ok bob (Some (-1001)) five_users)))).
Proof.
  apply (ensure_user_registered_grows env_ok bob (Some (-1001)) five_users).
  compute_done.
Defined.

End RosterFacts.

(** ** More on the state store *)

Section StoreRoundTrips.

Lemma pair_ne_keys (chat user chat' user' : Z) :
  (chat', user') <> (chat, user) ->
  ~ (Py.str chat = Py.str chat' /\ Py.str user = Py.str user').
Proof. intros Hne [H1%str_inj H2%str_inj]. congruence. Qed.

(** [increment_warning] returns the count it stored, one more than before,
    and touches nothing else: the counts of all other pairs and the rest of
    the store are as they were. *)
Theorem increment_warning_frame (E : Env) (chat user : Z) (w : World) :
  let r := TGBot2.increment_warning E chat user w in
  fst r = TGBot2.warning_count (data (snd r)) chat user
  /\ fst r = TGBot2.warning_count (data w) chat user + 1
  /\ (forall chat' user',
        (chat', user') <> (chat, user) ->
        TGBot2.warning_count (data (snd r)) chat' user'
        = TGBot2.warning_count (data w) chat' user')
  /\ users (data (snd r)) = users (data w)
  /\ banned (data (snd r)) = banned (data w)
  /\ files (data (snd r)) = files (data w)
  /\ channels (data (snd r)) = channels (data w)
  /\ chats_config (data (snd r)) = chats_config (data w).
Proof.
  intros r. subst r.
  destruct (increment2_spec E chat user w) as (Hn & Hd & _).
  rewrite Hn, Hd. split; [|split; [reflexivity|split; [|now repeat split]]].
  - now rewrite count_after_set, decide_True.
  - intros chat' user' Hne. rewrite count_after_set, decide_False; [reflexivity|].
    now apply pair_ne_keys.
Qed.

Lemma mem_app_other (x y : Z) (l : list Z) :
  x <> y -> mem x (l ++ [y]) = mem x l.
Proof.
  intros Hne. unfold mem. rewrite existsb_app. cbn.
  destruct (Z.eqb_spec x y); [congruence|]. now rewrite !orb_false_r.
Qed.

Lemma data_eta (d : Data) :
  mkData (users d) (warnings d) (banned d) (files d) (channels d)
         (chats_config d) = d.
Proof. now destruct d. Qed.

Lemma ban2_noop (E : Env) (chat user : Z) (w : World) :
  mem user (default [] (banned (data w) !! Py.str chat)) = true ->
  is_Some (banned (data w) !! Py.str chat) ->
  TGBot2.ban_user_record E chat user w = w.
Proof.
  intros Hm [l Hl]. unfold TGBot2.ban_user_record. rewrite Hl in *.
  cbn [default from_option] in *. unfold id in *. rewrite Hm.
  unfold with_data, with_banned. rewrite (insert_id _ _ _ Hl), data_eta.
  now destruct w.
Qed.

(** [ban_user_record] puts the pair in the ledger, once: afterwards the
    user counts as banned in that chat, nobody else's status changed, a
    second call changes and writes nothing, and a list without duplicates
    stays without. *)
Theorem ban_user_record_idempotent (E : Env) (chat user : Z) (w : World) :
  let w' := TGBot2.ban_user_record E chat user w in
  TGBot2.is_user_banned (data w') chat user = true
  /\ (forall chat' user',
        (chat', user') <> (chat, user) ->
        TGBot2.is_user_banned (data w') chat' user'
        = TGBot2.is_user_banned (data w) chat' user')
  /\ TGBot2.ban_user_record E chat user w' = w'
  /\ (NoDup (default [] (banned (data w) !! Py.str chat)) ->
      NoDup (default [] (banned (data w') !! Py.str chat))).
Proof.
  intros w'.
  set (l := default [] (banned (data w) !! Py.str chat)).
  assert (banned (data w')
          = <[Py.str chat := if mem user l then l else l ++ [user]]>
              (banned (data w))) as Hb.
  { subst w'. unfold TGBot2.ban_user_record. fold l.
    destruct (mem user l); [reflexivity|].
    cbn [TGBot2.persist TGBot2.save_data data with_data with_banned banned].
    apply insert_insert_eq. }
  assert (mem user (if mem user l then l else l ++ [user]) = true) as Hm.
  { destruct (mem user l) eqn:H; [exact H | apply mem_snoc]. }
  split; [|split; [|split]].
  - unfold TGBot2.is_user_banned. now rewrite Hb, lookup_insert_eq.
  - intros chat' user' Hne. unfold TGBot2.is_user_banned. rewrite Hb.
    destruct (decide (Py.str chat = Py.str chat')) as [Hc|Hc].
    + rewrite <- Hc, lookup_insert_eq. cbn [default from_option]. unfold id.
      fold l. destruct (mem user l); [reflexivity|].
      apply mem_app_other. intros ->. apply str_inj in Hc. congruence.
    + now rewrite lookup_insert_ne.
  - apply ban2_noop; rewrite Hb, lookup_insert_eq; [exact Hm | eauto].
  - intros Hnd. rewrite Hb, lookup_insert_eq. cbn [default from_option]. unfold id.
    destruct (mem user l) eqn:H; [exact Hnd|].
    apply NoDup_app. repeat split; [exact Hnd | | apply NoDup_singleton].
    intros x Hx ->%list_elem_of_singleton.
    apply mem_spec in Hx. congruence.
Qed.

Lemma ban_user_record_idempotent_witness :
  NoDup (default []
           (banned (data (TGBot2.ban_user_record env_ok (-1001) 7 ledger_world))
              !! Py.str (-1001))).
Proof.
  apply (ban_user_record_idempotent env_ok (-1001) 7 ledger_world).
  compute_done.
Defined.

Lemma mem_remove_other (x y : Z) (l : list Z) :
  y <> x -> mem y (remove_first x l) = mem y l.
Proof.
  intros Hne. induction l as [|z l IH]; [reflexivity|]. cbn.
  destruct (Z.eqb_spec x z) as [->|Hz]; cbn.
  - destruct (Z.eqb_spec y z); [congruence | reflexivity].
  - unfold mem in IH. now rewrite IH.
Qed.

Lemma remove_first_NoDup (x : Z) (l : list Z) :
  NoDup l -> NoDup (remove_first x l).
Proof.
  induction 1 as [|y l Hy Hl IH]; cbn; [constructor|].
  destruct (Z.eqb_spec x y); [exact Hl|].
  constructor; [|exact IH]. intros Hin. apply Hy.
  apply mem_spec in Hin. rewrite mem_remove_other in Hin by congruence.
  now apply mem_spec.
Qed.

(** In the polling variant [unban_user_record] undoes [ban_user_record]:
    with a ledger free of duplicates the user no longer counts as banned,
    whether or not the write went through; everybody else's status is as it
    was, and the list stays free of duplicates. *)
Theorem unban_user_record_clears (E : Env) (chat user : Z) (w : World) :
  NoDup (default [] (banned (data w) !! Py.str chat)) ->
  let w' := world_of (TGBot.unban_user_record E chat user w) in
  TGBot.is_user_banned (data w') chat user = false
  /\ (forall chat' user',
        (chat', user') <> (chat, user) ->
        TGBot.is_user_banned (data w') chat' user'
        = TGBot.is_user_banned (data w) chat' user')
  /\ NoDup (default [] (banned (data w') !! Py.str chat)).
Proof.
  intros Hnd w'. subst w'. unfold TGBot.unban_user_record, TGBot.is_user_banned.
  destruct (banned (data w) !! Py.str chat) as [l|] eqn:Hl;
    cbn [default from_option] in Hnd; unfold id in Hnd.
  - destruct (mem user l) eqn:Hm.
    + rewrite persist1_data.
      cbn [data with_data with_banned banned]. rewrite lookup_insert_eq.
      cbn [default from_option]. unfold id.
      split; [now apply remove_first_gone|]. split; [|now apply remove_first_NoDup].
      intros chat' user' Hne.
      destruct (decide (Py.str chat = Py.str chat')) as [Hc|Hc].
      * rewrite <- Hc, lookup_insert_eq, Hl. cbn [default from_option]. unfold id.
        apply mem_remove_other. intros ->. apply str_inj in Hc. congruence.
      * now rewrite lookup_insert_ne.
    + cbn [world_of]. rewrite Hl. cbn [default from_option]. unfold id.
      repeat split; auto.
  - cbn [world_of]. rewrite Hl. repeat split; auto.
Qed.

Lemma unban_user_record_clears_witness :
  TGBot.is_user_banned
    (data (world_of (TGBot.unban_user_record env_ok (-1001) 42 ledger_world)))
    (-1001) 42 = false.
Proof.
  apply (unban_user_record_clears env_ok (-1001) 42 ledger_world).
  compute_done.
Defined.

(** In the polling variant a failed write raises out of
    [increment_warning], after the count in memory has gone up: the caller
    sees an error, and the stored count is one more than before all the
    same. *)
Theorem polling_failed_write_raises (E : Env) (chat user : Z) (w : World) :
  disk_write E (trace w) <> Written ->
  exists w',
    TGBot.increment_warning E chat user w = Raised OSError w'
    /\ TGBot.get_warnings (data w') chat user
       = TGBot.get_warnings (data w) chat user + 1.
Proof.
  intros Hw.
  pose proof (increment1_data E chat user w) as Hd.
  unfold TGBot.increment_warning, TGBot.persist, TGBot.save_data in *.
  cbn [trace with_data] in *.
  destruct (disk_write E (trace w)) eqn:Ho; [congruence| |];
    cbn [bind world_of] in *;
    (eexists; split; [reflexivity|]);
    change TGBot.get_warnings with TGBot2.warning_count;
    rewrite Hd, count_after_set, decide_True; auto.
Qed.

Lemma polling_failed_write_raises_witness :
  exists w',
    TGBot.increment_warning env_disk_full (-1001) 42 fresh1 = Raised OSError w'
    /\ TGBot.get_warnings (data w') (-1001) 42
       = TGBot.get_warnings (data fresh1) (-1001) 42 + 1.
Proof.
  apply (polling_failed_write_raises env_disk_full (-1001) 42 fresh1).
  discriminate.
Defined.

End StoreRoundTrips.

(** ** More on the moderation handler *)

Section HandlerFacts.








(** Everything else is only registered: for a message in a chat that is no
    group, in a chat with link deletion off, or with nothing to object to,
    the handler does what [ensure_user_registered] does and no more. *)
Theorem unmoderated_message_only_registers
    (E : Env) (w : World) (user : User) (chat : Chat) (msg : Message) :
  let conf := TGBot2.get_chat_config (data w) (chat_id chat) in
  is_group chat = false \/ delete_links conf = false \/ violates conf msg = false ->
  TGBot2.message_handler E (incoming user chat msg) w
  = TGBot2.ensure_user_registered E user (Some (chat_id chat)) w.
Proof.
  intros conf H. unfold TGBot2.message_handler.
  cbn [incoming effective_message effective_user effective_chat].
  destruct (is_group chat) eqn:Hg; [|reflexivity].
  destruct (register2_frame E user (Some (chat_id chat)) w)
    as (_ & _ & Hc & _ & _).
  rewrite (get_chat_config_ext (data w)) by exact Hc. fold conf.
  destruct H as [H|[H|H]]; [discriminate| |].
  - now rewrite H.
  - unfold violates in H. rewrite H. now rewrite andb_false_r.
Qed.

Lemma unmoderated_message_only_registers_witness :
  TGBot2.message_handler env_ok
    (incoming bob {| chat_id := 42; chat_type := private |} (link_message 1))
    (fresh2 env_ok)
  = TGBot2.ensure_user_registered env_ok bob (Some 42) (fresh2 env_ok).
Proof.
  apply (unmoderated_message_only_registers env_ok (fresh2 env_ok) bob
           {| chat_id := 42; chat_type := private |} (link_message 1)).
  now left.
Defined.

End HandlerFacts.


(** ** The administrative commands *)

Section CommandFacts.

(** No privileged command of the webhook variant does anything for a
    sender who is no administrator, except answer that it is not allowed:
    the store, the file and every other request stay out of it. *)
Theorem webhook_commands_need_admin (E : Env) (c : Command) (w : World)
    (resolve : string -> option Z) (dir : string) (doc : option string)
    (fetched : bool) :
  TGBot2.is_admin E (user_id (cmd_user c)) = false ->
  let refused := snd (call E (ReplyText (chat_id (cmd_chat c)) NotAllowed) w) in
  data refused = data w
  /\ disk refused = disk w
  /\ calls (trace refused)
     = calls (trace w) ++ [ReplyText (chat_id (cmd_chat c)) NotAllowed]
  /\ TGBot2.cmd_broadcast E c w = refused
  /\ TGBot2.cmd_warn E c w = refused
  /\ TGBot2.cmd_ban E c w = refused
  /\ TGBot2.cmd_unban E c w = refused
  /\ TGBot2.cmd_kick E resolve c w = refused
  /\ TGBot2.cmd_setconfig E c w = refused
  /\ TGBot2.cmd_addfile E dir doc fetched c w = refused
  /\ TGBot2.cmd_rmfile E c w = refused.
Proof.
  intros Ha refused.
  split; [reflexivity|]. split; [reflexivity|]. split; [apply call_calls|].
  unfold TGBot2.cmd_broadcast, TGBot2.cmd_warn, TGBot2.cmd_ban,
    TGBot2.cmd_unban, TGBot2.cmd_kick, TGBot2.cmd_setconfig,
    TGBot2.cmd_addfile, TGBot2.cmd_rmfile.
  rewrite Ha. cbn [negb]. now repeat split.
Qed.

Lemma webhook_commands_need_admin_witness :
  TGBot2.cmd_setconfig env_ok (command bob ["delete_links=off"]) (fresh2 env_ok)
  = snd (call env_ok (ReplyText (-1001) NotAllowed) (fresh2 env_ok)).
Proof.
  apply (webhook_commands_need_admin env_ok (command bob ["delete_links=off"])
           (fresh2 env_ok) (fun _ => None) "files" None false).
  reflexivity.
Defined.

(** The same in the polling variant, where the reply itself may raise. *)
Theorem polling_commands_need_admin (E : Env) (c : Command) (w : World)
    (resolve : string -> option Z) :
  TGBot.is_admin (user_id (cmd_user c)) = false ->
  let refused := TGBot.reply E (chat_id (cmd_chat c)) NotAllowed w in
  data (world_of refused) = data w
  /\ disk (world_of refused) = disk w
  /\ calls (trace (world_of refused))
     = calls (trace w) ++ [ReplyText (chat_id (cmd_chat c)) NotAllowed]
  /\ TGBot.cmd_broadcast E c w = refused
  /\ TGBot.cmd_warn E c w = refused
  /\ TGBot.cmd_ban E c w = refused
  /\ TGBot.cmd_unban E c w = refused
  /\ TGBot.cmd_kick E resolve c w = refused.
Proof.
  intros Ha refused.
  assert (world_of refused
          = snd (call E (ReplyText (chat_id (cmd_chat c)) NotAllowed) w)) as Hr.
  { unfold refused, TGBot.reply, call, request.
    now destruct (gateway E (trace w) _). }
  rewrite Hr.
  split; [reflexivity|]. split; [reflexivity|]. split; [apply call_calls|].
  unfold TGBot.cmd_broadcast, TGBot.cmd_warn, TGBot.cmd_ban,
    TGBot.cmd_unban, TGBot.cmd_kick.
  rewrite Ha. cbn [negb]. now repeat split.
Qed.

Lemma polling_commands_need_admin_witness :
  TGBot.cmd_ban env_ok (command bob ["7"]) fresh1
  = TGBot.reply env_ok (-1001) NotAllowed fresh1.
Proof.
  apply (polling_commands_need_admin env_ok (command bob ["7"]) fresh1
           (fun _ => None)).
  reflexivity.
Defined.

(** [/kick] leaves the store alone in both variants: whoever sends it and
    however it ends, the warning counts, the ban ledger, the roster and the
    data file are as before. *)
Theorem kick_leaves_store (E : Env) (resolve : string -> option Z)
    (c : Command) (w : World) :
  data (TGBot2.cmd_kick E resolve c w) = data w
  /\ disk (TGBot2.cmd_kick E resolve c w) = disk w
  /\ data (world_of (TGBot.cmd_kick E resolve c w)) = data w
  /\ disk (world_of (TGBot.cmd_kick E resolve c w)) = disk w.
Proof.
  unfold TGBot2.cmd_kick, TGBot.cmd_kick, TGBot.reply_or_report, TGBot.reply,
    call, request.
  repeat split;
    repeat first
      [ reflexivity
      | match goal with
        | |- context [if ?b then _ else _] => destruct b
        | |- context [match ?x with _ => _ end] => destruct x
        end ];
    cbn [fst snd with_trace data disk world_of]; try reflexivity.
Qed.



(** A manual [/warn] is the same increment as an automatic one: the count
    of the replied user goes up by exactly one whatever the gateway does,
    nobody else's count changes, and below the limit (or with banning at the
    limit off) no ban is requested and the ledger stays as it is. *)
Theorem manual_warn_increments (E : Env) (c : Command) (w : World)
    (replied : Replied) :
  TGBot2.is_admin E (user_id (cmd_user c)) = true ->
  reply_to_message (cmd_message c) = Some replied ->
  let chat := chat_id (cmd_chat c) in
  let target := user_id (replied_from replied) in
  let conf := TGBot2.get_chat_config (data w) chat in
  let n := TGBot2.warning_count (data w) chat target + 1 in
  let w' := TGBot2.cmd_warn E c w in
  TGBot2.warning_count (data w') chat target = n
  /\ (forall chat' user',
        (chat', user') <> (chat, target) ->
        TGBot2.warning_count (data w') chat' user'
        = TGBot2.warning_count (data w) chat' user')
  /\ ((warn_limit conf <=? n) && ban_on_limit conf = false ->
      banned (data w') = banned (data w)
      /\ ban_requests chat target (trace w') = ban_requests chat target (trace w)).
Proof.
  intros Ha Hr chat target conf n w'.
  pattern w'. match goal with |- ?Q w' => set (P := Q) end.
  subst w'. unfold TGBot2.cmd_warn. rewrite Ha, Hr. cbn [negb].
  fold chat target.
  destruct (increment2_spec E chat target w) as (Hn & Hd & Hc).
  destruct (TGBot2.increment_warning E chat target w) as [new w1].
  cbn [fst snd] in Hn, Hd, Hc. fold n in Hn. subst new.
  assert (TGBot2.warning_count (data w1) chat target = n) as Hcount.
  { now rewrite Hd, count_after_set, decide_True. }
  assert (forall chat' user',
             (chat', user') <> (chat, target) ->
             TGBot2.warning_count (data w1) chat' user'
             = TGBot2.warning_count (data w) chat' user') as Hothers.
  { intros chat' user' Hne. rewrite Hd, count_after_set, decide_False; [reflexivity|].
    now apply pair_ne_keys. }
  assert (banned (data w1) = banned (data w)) as Hb1 by now rewrite Hd.
  assert (chats_config (data w1) = chats_config (data w)) as Hcf by now rewrite Hd.
  assert (ban_requests chat target (trace w1) = ban_requests chat target (trace w))
    as Hr1 by now apply ban_requests_ext.
  clear Hd Hc.
  unfold call at 1. unfold request.
  set (said := ReplyText chat _).
  set (w2 := with_trace _ w1).
  assert (data w2 = data w1) as Hd2 by reflexivity.
  assert (ban_requests chat target (trace w2) = ban_requests chat target (trace w))
    as Hr2.
  { unfold w2. cbn [trace with_trace]. rewrite ban_requests_app. unfold said.
    cbn [is_ban_request Nat.b2n]. lia. }
  clearbody w2.
  assert (P w2) as Hstop.
  { subst P. cbn beta. rewrite Hd2. split; [exact Hcount|]. split; [exact Hothers|].
    intros _. now split. }
  destruct (gateway E (trace w1) said); cbn [negb]; [|exact Hstop].
  rewrite (get_chat_config_ext (data w) (data w2)) by congruence. fold conf.
  destruct ((warn_limit conf <=? n) && ban_on_limit conf) eqn:Hdue; [|exact Hstop].
  assert (forall w3, warnings (data w3) = warnings (data w1) -> P w3) as Hany.
  { intros w3 Hw3. subst P. cbn beta. split; [|split].
    - erewrite count_ext; [exact Hcount | exact Hw3].
    - intros chat' user' Hne. erewrite count_ext; [now apply Hothers | exact Hw3].
    - discriminate. }
  unfold call, request. cbn [fst snd].
  destruct (gateway E (trace w2) _).
  - set (w3 := with_trace _ w2).
    destruct (ban2_frame E chat target w3) as (Hw4 & _ & _).
    destruct (gateway E _ _); [|destruct (gateway E _ _)];
      apply Hany; cbn [data with_trace]; rewrite Hw4; cbn [w3 data with_trace];
      now rewrite Hd2.
  - destruct (gateway E _ _); apply Hany; cbn [data with_trace]; now rewrite Hd2.
Qed.

Lemma manual_warn_increments_witness :
  TGBot2.warning_count
    (data (TGBot2.cmd_warn env_ok (forward_command admin) (fresh2 env_ok)))
    (-1001) 42 = 1.
Proof.
  apply (manual_warn_increments env_ok (forward_command admin) (fresh2 env_ok)
           {| replied_id := 900; replied_from := bob |}); reflexivity.
Defined.

(** *** The file registry *)

(** [/addfile key desc...] registers the replied document under [key], with
    the path [os.path.join(FILES_DIR, key_filename)] and the description
    made of the remaining arguments, and leaves every other key alone; when
    fetching the document failed nothing is registered.  A key that starts
    with a slash makes the stored path absolute, outside [FILES_DIR]. *)
Theorem addfile_registers (E : Env) (dir name key : string)
    (rest : list string) (fetched : bool) (c : Command) (w : World)
    (replied : Replied) :
  TGBot2.is_admin E (user_id (cmd_user c)) = true ->
  reply_to_message (cmd_message c) = Some replied ->
  cmd_args c = key :: rest ->
  let w' := TGBot2.cmd_addfile E dir (Some name) fetched c w in
  (fetched = true ->
   files (data w') !! key
   = Some {| path := TGBot2.path_join dir (key +:+ "_" +:+ name);
             desc := join_space rest |}
   /\ (forall k, k <> key -> files (data w') !! k = files (data w) !! k)
   /\ users (data w') = users (data w)
   /\ warnings (data w') = warnings (data w)
   /\ banned (data w') = banned (data w))
  /\ (fetched = false -> w' = w)
  /\ (forall key', key = String "/" key' ->
        TGBot2.path_join dir (key +:+ "_" +:+ name) = key +:+ "_" +:+ name).
Proof.
  intros Ha Hr Hargs w'. subst w'. unfold TGBot2.cmd_addfile.
  rewrite Ha, Hr, Hargs. cbn [negb]. split; [|split].
  - intros ->. cbn [negb]. rewrite call_data.
    cbn [TGBot2.persist TGBot2.save_data data with_data files users warnings banned].
    rewrite lookup_insert_eq. repeat split.
    intros k Hk. now rewrite lookup_insert_ne.
  - now intros ->.
  - intros key' ->. reflexivity.
Qed.

Lemma addfile_registers_witness :
  files (data (TGBot2.cmd_addfile env_ok "files" (Some "a.pdf") true
                 {| cmd_user := admin; cmd_chat := a_group;
                    cmd_message := cmd_message (forward_command admin);
                    cmd_args := ["guide"; "user"; "guide"] |}
                 (fresh2 env_ok)))
    !! "guide"
  = Some {| path := "files/guide_a.pdf"; desc := "user guide" |}.
Proof.
  apply (addfile_registers env_ok "files" "a.pdf" "guide" ["user"; "guide"] true
           {| cmd_user := admin; cmd_chat := a_group;
              cmd_message := cmd_message (forward_command admin);
              cmd_args := ["guide"; "user"; "guide"] |}
           (fresh2 env_ok) {| replied_id := 900; replied_from := bob |});
    reflexivity.
Defined.

(** [/rmfile key] takes exactly that key out of the registry; for a key
    that is not registered it changes and writes nothing; and removing a key
    right after adding it, when it was free before, gives back the registry
    as it was. *)
Theorem rmfile_unregisters (E : Env) (key : string) (rest : list string)
    (c : Command) (w : World) :
  TGBot2.is_admin E (user_id (cmd_user c)) = true ->
  cmd_args c = key :: rest ->
  let w' := TGBot2.cmd_rmfile E c w in
  files (data w') !! key = None
  /\ (forall k, k <> key -> files (data w') !! k = files (data w) !! k)
  /\ (files (data w) !! key = None ->
      data w' = data w /\ disk w' = disk w
      /\ calls (trace w')
         = calls (trace w) ++ [ReplyText (chat_id (cmd_chat c)) (Text "Unknown key")])
  /\ (forall dir name fetched c0 w0 desc,
        w = TGBot2.cmd_addfile E dir (Some name) fetched c0 w0 ->
        TGBot2.is_admin E (user_id (cmd_user c0)) = true ->
        cmd_args c0 = key :: desc ->
        files (data w0) !! key = None ->
        files (data w') = files (data w0)).
Proof.
  intros Ha Hargs w'.
  assert (files (data w')
          = match files (data w) !! key with
            | Some _ => delete key (files (data w))
            | None => files (data w)
            end) as Hf.
  { subst w'. unfold TGBot2.cmd_rmfile. rewrite Ha, Hargs. cbn [negb].
    now destruct (files (data w) !! key). }
  split; [|split; [|split]].
  - rewrite Hf. destruct (files (data w) !! key) eqn:Hk; [|exact Hk].
    apply lookup_delete_eq.
  - intros k Hk. rewrite Hf. destruct (files (data w) !! key); [|reflexivity].
    now apply lookup_delete_ne.
  - intros Hk. subst w'. unfold TGBot2.cmd_rmfile. rewrite Ha, Hargs, Hk.
    cbn [negb]. repeat split. apply call_calls.
  - intros dir name fetched c0 w0 desc Hw Ha0 Hargs0 Hfree. rewrite Hf, Hw.
    unfold TGBot2.cmd_addfile. rewrite Ha0, Hargs0. cbn [negb].
    destruct (reply_to_message (cmd_message c0)); [|now rewrite call_data, Hfree].
    destruct fetched; cbn [negb]; [|now rewrite Hfree].
    rewrite call_data.
    cbn [TGBot2.persist TGBot2.save_data data with_data files].
    rewrite lookup_insert_eq, delete_insert_eq. now apply delete_id.
Qed.

Lemma rmfile_unregisters_witness :
  let add := {| cmd_user := admin; cmd_chat := a_group;
                cmd_message := cmd_message (forward_command admin);
                cmd_args := ["guide"; "user"; "guide"] |} in
  let added := TGBot2.cmd_addfile env_ok "files" (Some "a.pdf") true add
                 (fresh2 env_ok) in
  files (data (TGBot2.cmd_rmfile env_ok (command admin ["guide"]) added))
    !! "guide" = None
  /\ files (data (TGBot2.cmd_rmfile env_ok (command admin ["guide"]) added))
     = files (data (fresh2 env_ok))
  /\ data (TGBot2.cmd_rmfile env_ok (command admin ["guide"]) (fresh2 env_ok))
     = data (fresh2 env_ok).
Proof.
  intros add added.
  destruct (rmfile_unregisters env_ok "guide" [] (command admin ["guide"])
              added eq_refl eq_refl) as (H1 & _ & _ & H4).
  destruct (rmfile_unregisters env_ok "guide" [] (command admin ["guide"])
              (fresh2 env_ok) eq_refl eq_refl) as (_ & _ & H3 & _).
  split; [exact H1|]. split.
  - apply (H4 "files" "a.pdf" true add (fresh2 env_ok) ["user"; "guide"]);
      reflexivity.
  - now apply H3.
Defined.

End CommandFacts.

(** ** Broadcasts *)

Section BroadcastFacts.

(** With a roster whose keys are the decimal forms of user ids (what the
    registration writes), the webhook variant's [/broadcast] tries every
    registered user and then every channel, once each and in that order,
    in the text mode and in the forward mode alike; its report adds up to
    the number of recipients and [failed] is the number of requests that
    raised. *)
Theorem webhook_broadcast_reaches_everyone
    (E : Env) (c : Command) (w : World) (ids : list Z) :
  TGBot2.is_admin E (user_id (cmd_user c)) = true ->
  map fst (users (data w)) = map Py.str ids ->
  let w' := TGBot2.cmd_broadcast E c w in
  exists sent failed,
    attempts (trace w') = attempts (trace w) ++ ids ++ channels (data w)
    /\ last (calls (trace w'))
       = Some (ReplyText (chat_id (cmd_chat c)) (BroadcastReport sent failed))
    /\ sent + failed = Z.of_nat (length ids + length (channels (data w)))
    /\ failed = Z.of_nat (failures (trace w') - failures (trace w))
    /\ data w' = data w.
Proof.
  intros Ha Hk w'.
  destruct (broadcast2_counts E c w Ha) as (sent & failed & H1 & H2 & H3 & H4).
  fold w' in H1, H2, H4. rewrite Hk in H1, H4.
  destruct (somes_map_int_str ids) as [Hs Hn]. rewrite Hs in H1. rewrite Hn in H4.
  exists sent, failed. repeat split; try assumption.
  - rewrite H3. f_equal. f_equal.
    rewrite <- (length_map fst), Hk. apply length_map.
  - lia.
  - subst w'. unfold TGBot2.cmd_broadcast. rewrite Ha. cbn [negb].
    destruct (send_loop E _ _ (send_loop E _ _ _)) as [[s f] tr].
    now rewrite call_data.
Qed.

Lemma webhook_broadcast_reaches_everyone_witness :
  exists sent failed,
    attempts (trace (TGBot2.cmd_broadcast env_two_fail (forward_command admin)
                       five_users))
    = attempts (trace five_users) ++ [1; 2; 3; 4; 5] ++ channels (data five_users)
    /\ last (calls (trace (TGBot2.cmd_broadcast env_two_fail
                             (forward_command admin) five_users)))
       = Some (ReplyText (-1001) (BroadcastReport sent failed))
    /\ sent + failed = 5.
Proof.
  destruct (webhook_broadcast_reaches_everyone env_two_fail
              (forward_command admin) five_users [1; 2; 3; 4; 5]
              eq_refl eq_refl)
    as (sent & failed & H1 & H2 & H3 & _).
  exists sent, failed. repeat split; assumption.
Defined.

Lemma ints_map_str (ids : list Z) : TGBot.ints (map Py.str ids) = Some ids.
Proof.
  induction ids as [|x ids IH]; [reflexivity|].
  cbn [map TGBot.ints]. now rewrite int_str, IH.
Qed.

Lemma reply1_trace (E : Env) (chat : Z) (body : Body) (w : World) :
  trace (world_of (TGBot.reply E chat body w))
  = trace w ++ [Called (ReplyText chat body) (gateway E (trace w) (ReplyText chat body))]
  /\ data (world_of (TGBot.reply E chat body w)) = data w.
Proof.
  unfold TGBot.reply, call, request.
  now destruct (gateway E (trace w) (ReplyText chat body)).
Qed.

(** The text mode of the polling variant's [/broadcast], with a roster
    whose keys are the decimal forms of user ids: every registered user and
    then every channel is tried, once each; the report adds up to their
    number and [failed] is the number of requests that raised. *)
Theorem polling_broadcast_text_mode
    (E : Env) (c : Command) (w : World) (ids : list Z) (a : string)
    (rest : list string) :
  TGBot.is_admin (user_id (cmd_user c)) = true ->
  cmd_args c = a :: rest ->
  map fst (users (data w)) = map Py.str ids ->
  let w' := world_of (TGBot.cmd_broadcast E c w) in
  exists sent failed,
    calls (trace w')
    = calls (trace w)
      ++ map (fun r => SendMessage r (Text (join_space (a :: rest))))
           (ids ++ channels (data w))
      ++ [ReplyText (chat_id (cmd_chat c)) (BroadcastReport sent failed)]
    /\ sent + failed = Z.of_nat (length ids + length (channels (data w)))
    /\ failed = Z.of_nat (failures (trace w') - failures (trace w))
    /\ data w' = data w.
Proof.
  intros Ha Hargs Hk w'. subst w'. unfold TGBot.cmd_broadcast.
  rewrite Ha, Hargs, Hk, ints_map_str. cbn [negb].
  set (mk := fun rid => SendMessage rid (Text (join_space (a :: rest)))).
  assert (forall r, delivers_to (mk r) r) as Hmk.
  { intros r. left. now eexists. }
  pose proof (send_loop_spec E mk (map Some (ids ++ channels (data w))) Hmk
                0 0 (trace w)) as H.
  assert (forall o : option Replied,
             match o with
             | Some _ | None =>
                 let '(sent, failed, tr) :=
                   send_loop E mk (map Some (ids ++ channels (data w)))
                     (0, 0, trace w) in
                 TGBot.reply E (chat_id (cmd_chat c)) (BroadcastReport sent failed)
                   (with_trace tr w)
             end
             = let '(sent, failed, tr) :=
                 send_loop E mk (map Some (ids ++ channels (data w)))
                   (0, 0, trace w) in
               TGBot.reply E (chat_id (cmd_chat c)) (BroadcastReport sent failed)
                 (with_trace tr w)) as Hm by (now intros []).
  rewrite Hm. clear Hm.
  destruct (send_loop E mk _ _) as [[s f] tr].
  destruct H as (H1 & _ & H3 & H4 & H5).
  rewrite somes_map_Some in H5. rewrite nones_map_Some in H3.
  rewrite length_map, length_app in H1.
  destruct (reply1_trace E (chat_id (cmd_chat c)) (BroadcastReport s f)
              (with_trace tr w)) as [Ht Hd].
  exists s, f. rewrite Ht, Hd. cbn [trace with_trace data].
  rewrite calls_snoc, failures_reply, H5, <- app_assoc.
  repeat split; lia.
Qed.

Lemma polling_broadcast_text_mode_witness :
  exists sent failed,
    calls (trace (world_of (TGBot.cmd_broadcast env_two_fail
                              (command admin1 ["hello"; "all"]) five_users)))
    = calls (trace five_users)
      ++ map (fun r => SendMessage r (Text "hello all"))
           ([1; 2; 3; 4; 5] ++ channels (data five_users))
      ++ [ReplyText (-1001) (BroadcastReport sent failed)]
    /\ sent + failed = 5.
Proof.
  destruct (polling_broadcast_text_mode env_two_fail
              (command admin1 ["hello"; "all"]) five_users [1; 2; 3; 4; 5]
              "hello" ["all"] eq_refl eq_refl eq_refl)
    as (sent & failed & H1 & H2 & _).
  exists sent, failed. split; assumption.
Defined.

(** The forward mode of the polling variant's [/broadcast] (a reply, no
    arguments) forwards the replied message to the registered users and to
    nobody else: the channels of the store get nothing, and the report
    counts the users only. *)
Theorem polling_broadcast_forward_mode
    (E : Env) (c : Command) (w : World) (ids : list Z) (replied : Replied) :
  TGBot.is_admin (user_id (cmd_user c)) = true ->
  reply_to_message (cmd_message c) = Some replied ->
  cmd_args c = [] ->
  map fst (users (data w)) = map Py.str ids ->
  let w' := world_of (TGBot.cmd_broadcast E c w) in
  exists sent failed,
    calls (trace w')
    = calls (trace w)
      ++ map (fun r => ForwardMessage r (chat_id (cmd_chat c)) (replied_id replied))
           ids
      ++ [ReplyText (chat_id (cmd_chat c)) (BroadcastReport sent failed)]
    /\ sent + failed = Z.of_nat (length ids)
    /\ failed = Z.of_nat (failures (trace w') - failures (trace w)).
Proof.
  intros Ha Hr Hargs Hk w'. subst w'. unfold TGBot.cmd_broadcast.
  rewrite Ha, Hr, Hargs, Hk. cbn [negb].
  set (mk := fun rid => ForwardMessage rid (chat_id (cmd_chat c)) (replied_id replied)).
  assert (forall r, delivers_to (mk r) r) as Hmk.
  { intros r. right. now eexists _, _. }
  pose proof (send_loop_spec E mk (map Py.int (map Py.str ids)) Hmk
                0 0 (trace w)) as H.
  destruct (send_loop E mk _ _) as [[s f] tr].
  destruct H as (H1 & _ & H3 & H4 & H5).
  destruct (somes_map_int_str ids) as [Hs Hn]. rewrite Hs in H5. rewrite Hn in H3.
  rewrite !length_map in H1.
  destruct (reply1_trace E (chat_id (cmd_chat c)) (BroadcastReport s f)
              (with_trace tr w)) as [Ht Hd].
  exists s, f. rewrite Ht. cbn [trace with_trace].
  rewrite calls_snoc, failures_reply, H5, <- app_assoc.
  repeat split; lia.
Qed.

Lemma polling_broadcast_forward_mode_witness :
  exists sent failed,
    calls (trace (world_of (TGBot.cmd_broadcast env_ok (forward_command admin1)
                              roster_world)))
    = calls (trace roster_world)
      ++ map (fun r => ForwardMessage r (-1001) 900) [7]
      ++ [ReplyText (-1001) (BroadcastReport sent failed)]
    /\ sent + failed = 1.
Proof.
  destruct (polling_broadcast_forward_mode env_ok (forward_command admin1)
              roster_world [7] {| replied_id := 900; replied_from := bob |}
              eq_refl eq_refl eq_refl eq_refl)
    as (sent & failed & H1 & H2 & _).
  exists sent, failed. split; assumption.
Defined.

End BroadcastFacts.

(** ** More on the chat policies *)

Section PolicyInvariants.







(** The banned words stay in lower case under [/setconfig], whatever its
    tokens: a word is lowered before it is added, and removing adds
    nothing.  So when every stored list is in lower case before the
    command, every stored list is afterwards, and so are the words in
    force in every chat. *)
Theorem setconfig_words_stay_lowercase (E : Env) (c : Command) (w : World) :
  stored_lowercase (data w) ->
  let w' := TGBot2.cmd_setconfig E c w in
  stored_lowercase (data w')
  /\ (forall chat,
        set_Forall lowercase (banned_words (TGBot2.get_chat_config (data w') chat))).
Proof.
  intros Hd w'.
  assert (stored_lowercase (data w')) as H by now apply setconfig_keeps_lowercase.
  split; [exact H|]. intros chat. now apply effective_words_lowercase.
Qed.

Lemma setconfig_words_stay_lowercase_witness :
  set_Forall lowercase
    (banned_words
       (TGBot2.get_chat_config
          (data (TGBot2.cmd_setconfig env_ok (command admin ["add_banned=SPAM"])
                   (fresh2 env_ok))) (-1001))).
Proof.
  apply (setconfig_words_stay_lowercase env_ok (command admin ["add_banned=SPAM"])
           (fresh2 env_ok)).
  apply default_stored_lowercase.
Defined.

End PolicyInvariants.

(** ** The classifier of the polling variant *)

Section PollingClassifier.
Import Re.

Lemma lower_app (a b : string) : Py.lower (a +:+ b) = Py.lower a +:+ Py.lower b.
Proof.
  induction a as [|c a IH]; [now rewrite !app_nil_l_s|].
  rewrite app_cons_s. cbn [Py.lower]. now rewrite app_cons_s, IH.
Qed.

(** Lowering changes capital letters only. *)
Lemma lower_char_other (x y : ascii) :
  Py.lower_char x = y -> Py.is_lower y = false -> x = y.
Proof.
  intros <-.
  destruct x as [[] [] [] [] [] [] [] []]; cbn; (reflexivity || discriminate).
Qed.

Lemma lower_char_word (x y : ascii) :
  Py.lower_char x = y -> Py.is_lower y = true -> Py.is_word x = true.
Proof.
  intros <-.
  destruct x as [[] [] [] [] [] [] [] []]; cbn; (reflexivity || discriminate).
Qed.

Lemma orelse_l {A : Type} (x y : option A) : is_Some x -> is_Some (orelse x y).
Proof. now intros [a ->]. Qed.

Lemma orelse_r {A : Type} (x y : option A) : is_Some y -> is_Some (orelse x y).
Proof. destruct x; cbn; eauto. Qed.

Lemma ichr_step {A : Type} (c x : ascii) pos prev rest (k : cont (A := A)) :
  Py.lower_char x = Py.lower_char c ->
  rmatch (ichr c) pos prev (String x rest) k = k (S pos) (Some x) rest.
Proof. intros H. cbn. now rewrite H, Ascii.eqb_refl. Qed.

Lemma chr_step {A : Type} (c : ascii) pos prev rest (k : cont (A := A)) :
  rmatch (chr c) pos prev (String c rest) k = k (S pos) (Some c) rest.
Proof. cbn. now rewrite Ascii.eqb_refl. Qed.

(** A literal under [re.IGNORECASE] matches every spelling of it, and
    leaves the matcher after the last of its characters. *)
Lemma ilit_matches {A : Type} (m0 : string) :
  forall m x,
    Py.lower (m +:+ String x "") = Py.lower m0 ->
    forall pos prev rest (k : cont (A := A)),
    exists pos',
      rmatch (ilit m0) pos prev (m +:+ String x rest) k = k pos' (Some x) rest.
Proof.
  induction m0 as [|c m0 IH]; intros m x H pos prev rest k.
  - destruct m; discriminate.
  - destruct m0 as [|c' m0'].
    + destruct m as [|y m].
      * rewrite app_nil_l_s in *. cbn in H. injection H as H.
        exists (S pos). cbn [ilit]. now apply ichr_step.
      * rewrite app_cons_s in H. cbn in H. injection H as _ H.
        destruct m; discriminate.
    + destruct m as [|y m].
      * rewrite app_nil_l_s in H. discriminate.
      * rewrite app_cons_s in *. cbn [Py.lower] in H. injection H as Hy H.
        change (ilit (String c (String c' m0')))
          with (Seq (ichr c) (ilit (String c' m0'))).
        cbn [rmatch]. rewrite ichr_step by exact Hy.
        apply (IH m x H).
Qed.

Lemma found (r : regex) (s : string) :
  (forall prev, is_Some (rmatch r 0 prev s (fun _ _ _ => Some tt))) ->
  forall p, search r (p +:+ s) = true.
Proof.
  intros H p. unfold search. apply search_from_app. intros prev.
  unfold match_here. now destruct (H prev) as [[] ->].
Qed.

Lemma flagged_by_pattern (text : string) :
  text <> "" -> search TGBot.LINK_PATTERN text = true ->
  TGBot.contains_link_or_banned text = true.
Proof.
  intros Hne Hs. unfold TGBot.contains_link_or_banned. rewrite Hs.
  now destruct text.
Qed.

Lemma app_not_empty (pre m post : string) :
  m <> "" -> pre +:+ m +:+ post <> "".
Proof.
  intros Hm H. destruct m as [|c m]; [congruence|].
  destruct pre; rewrite ?app_cons_s, ?app_nil_l_s in H; discriminate.
Qed.

Lemma lower_not_empty (m w : string) : Py.lower m = w -> w <> "" -> m <> "".
Proof. intros <- H ->. now apply H. Qed.

Lemma lower_fixed (s t : string) :
  Py.lower s = t -> Py.all_chars (fun c => negb (Py.is_lower c)) t = true ->
  s = t.
Proof.
  revert t. induction s as [|c s IH]; intros t H Ht; [exact H|].
  destruct t as [|d t]; [discriminate|].
  cbn in H. injection H as Hc Hs. cbn in Ht.
  apply andb_true_iff in Ht as [Hd Ht]. apply negb_true_iff in Hd.
  f_equal; [now apply lower_char_other | now apply IH].
Qed.

(** Splitting a spelling of [a ++ b] into a spelling of each. *)
Lemma lower_split (a b m : string) :
  Py.lower m = a +:+ b ->
  exists m1 m2, m = m1 +:+ m2 /\ Py.lower m1 = a /\ Py.lower m2 = b.
Proof.
  revert m. induction a as [|c a IH]; intros m H.
  - rewrite app_nil_l_s in H. exists "", m. now rewrite app_nil_l_s.
  - rewrite app_cons_s in H. destruct m as [|x m]; [discriminate|].
    cbn in H. injection H as Hx Hm.
    destruct (IH m Hm) as (m1 & m2 & -> & H1 & H2).
    exists (String x m1), m2. rewrite app_cons_s. cbn. now rewrite Hx, H1.
Qed.

(** A non-empty string ends in a character. *)
Lemma snoc_view (m : string) :
  m <> "" -> exists m' x, m = m' +:+ String x "".
Proof.
  induction m as [|c m IH]; [congruence|]. intros _.
  destruct m as [|d m].
  - now exists "", c.
  - destruct IH as (m' & x & ->); [discriminate|].
    exists (String c m'), x. now rewrite app_cons_s.
Qed.

Lemma ilit_found {A : Type} (m0 m : string) pos prev rest (k : cont (A := A)) :
  m0 <> "" -> Py.lower m = Py.lower m0 ->
  exists m' x pos',
    m = m' +:+ String x ""
    /\ rmatch (ilit m0) pos prev (m +:+ rest) k = k pos' (Some x) rest.
Proof.
  intros Hne H.
  destruct (snoc_view m) as (m' & x & ->).
  { intros ->. destruct m0; [congruence | discriminate]. }
  destruct (ilit_matches m0 m' x H pos prev rest k) as [pos' Hm].
  exists m', x, pos'. split; [reflexivity|].
  now rewrite app_assoc_s, app_cons_s, app_nil_l_s.
Qed.

Tactic Notation "alternative" integer(n) :=
  unfold TGBot.LINK_PATTERN; cbn [alts rmatch];
  do n (apply orelse_r); try apply orelse_l.

(** [https?://], in any letter case. *)
Lemma scheme_matches (m rest : string) prev :
  Py.lower m = "http://" \/ Py.lower m = "https://" ->
  is_Some (rmatch TGBot.LINK_PATTERN 0 prev (m +:+ rest) (fun _ _ _ => Some tt)).
Proof.
  intros H. alternative 0. cbn [seqs rmatch].
  destruct H as [H|H].
  - destruct (lower_split "http" "://" m H) as (m1 & m2 & -> & H1 & H2).
    apply lower_fixed in H2; [subst m2 | reflexivity].
    rewrite app_assoc_s.
    destruct (ilit_found (A := unit) "http" m1 0 prev ("://" +:+ rest)
                (fun pos' prev' s' =>
                   rmatch (opt (ichr "s")) pos' prev' s'
                     (fun pos'0 prev'0 s'0 =>
                        rmatch (lit "://") pos'0 prev'0 s'0 (fun _ _ _ => Some tt))))
      as (m' & x & pos' & _ & ->); [discriminate | exact H1 |].
    vm_compute. eauto.
  - destruct (lower_split "http" "s://" m H) as (m1 & m2 & -> & H1 & H2).
    destruct m2 as [|s m2]; [discriminate|]. cbn in H2. injection H2 as Hs H2.
    apply lower_fixed in H2; [subst m2 | reflexivity].
    rewrite app_assoc_s.
    destruct (ilit_found (A := unit) "http" m1 0 prev (String s "://" +:+ rest)
                (fun pos' prev' s' =>
                   rmatch (opt (ichr "s")) pos' prev' s'
                     (fun pos'0 prev'0 s'0 =>
                        rmatch (lit "://") pos'0 prev'0 s'0 (fun _ _ _ => Some tt))))
      as (m' & x & pos' & _ & ->); [discriminate | exact H1 |].
    unfold opt. cbn [rmatch rep_exact rep_more]. apply orelse_l.
    rewrite app_cons_s, ichr_step by exact Hs.
    vm_compute. eauto.
Qed.

(** [www\.], [t\.me/] and [telegram\.me/], in any letter case. *)
Lemma host_matches (m rest : string) prev :
  Py.lower m = "www." \/ Py.lower m = "t.me/" \/ Py.lower m = "telegram.me/" ->
  is_Some (rmatch TGBot.LINK_PATTERN 0 prev (m +:+ rest) (fun _ _ _ => Some tt)).
Proof.
  intros [H|[H|H]].
  - alternative 1. cbn [seqs rmatch].
    destruct (lower_split "www" "." m H) as (m1 & m2 & -> & H1 & H2).
    apply lower_fixed in H2; [subst m2 | reflexivity].
    rewrite app_assoc_s.
    destruct (ilit_found (A := unit) "www" m1 0 prev ("." +:+ rest)
                (fun pos' prev' s' =>
                   rmatch (chr ".") pos' prev' s' (fun _ _ _ => Some tt)))
      as (m' & x & pos' & _ & ->); [discriminate | exact H1 |].
    vm_compute. eauto.
  - alternative 2.
    destruct (ilit_found (A := unit) "t.me/" m 0 prev rest (fun _ _ _ => Some tt))
      as (m' & x & pos' & _ & ->); [discriminate | exact H |]. eauto.
  - alternative 3.
    destruct (ilit_found (A := unit) "telegram.me/" m 0 prev rest
                (fun _ _ _ => Some tt))
      as (m' & x & pos' & _ & ->); [discriminate | exact H |]. eauto.
Qed.

(** [\S+\.com\b] and [\S+\.in\b]: one character that is no blank, the
    ending in any letter case, and then no word character. *)
Lemma lower_lowercase (e : string) :
  Py.all_chars Py.is_lower e = true -> Py.lower e = e.
Proof.
  induction e as [|a e IH]; [reflexivity|].
  intros [Ha He]%andb_true_iff. cbn. rewrite IH by exact He.
  f_equal. unfold Py.lower_char.
  destruct a as [[] [] [] [] [] [] [] []]; try discriminate Ha; reflexivity.
Qed.

(** A spelling of a word of small letters ends in a word character. *)
Lemma spelling_ends_in_word (e m' : string) (x : ascii) :
  Py.all_chars Py.is_lower e = true ->
  Py.lower (m' +:+ String x "") = e -> Py.is_word x = true.
Proof.
  revert e. induction m' as [|y m' IH]; intros e He H.
  - rewrite app_nil_l_s in H. destruct e as [|a e]; [discriminate|].
    injection H as Hx _. cbn in He. apply andb_true_iff in He as [Ha _].
    now apply (lower_char_word x a).
  - rewrite app_cons_s in H. destruct e as [|a e]; [discriminate|].
    injection H as _ H. cbn in He. apply andb_true_iff in He as [_ He].
    now apply (IH e).
Qed.

Lemma ending_matches_gen (e : string) (c : ascii) (d rest : string) prev :
  e <> "" -> Py.all_chars Py.is_lower e = true ->
  TGBot.not_space c = true ->
  Py.lower d = "." +:+ e ->
  word_after rest = false ->
  is_Some (rmatch (seqs [Plus TGBot.not_space; chr "."; ilit e; Bound])
             0 prev (String c (d +:+ rest)) (fun _ _ _ => Some tt)).
Proof.
  intros Hne He Hc Hd Hrest.
  destruct (lower_split "." e d Hd) as (d1 & d2 & -> & H1 & H2).
  apply lower_fixed in H1; [subst d1 | reflexivity].
  cbn [seqs rmatch plus_loop]. rewrite Hc. apply orelse_r.
  rewrite app_assoc_s, app_cons_s, app_nil_l_s, chr_step.
  destruct (ilit_found (A := unit) e d2 2 (Some "."%char) rest
              (fun _ prev' s' => if at_boundary prev' s' then Some tt else None))
    as (m' & x & pos' & Hd2 & ->);
    [exact Hne | now rewrite H2, lower_lowercase |].
  subst d2. unfold at_boundary. cbn [word_before].
  rewrite (spelling_ends_in_word e m' x He H2), Hrest. cbn. eauto.
Qed.

(** [\S+\.com\b] and [\S+\.in\b]: one character that is no blank, the
    ending in any letter case, and then no word character. *)
Lemma ending_matches (c : ascii) (d rest : string) prev :
  TGBot.not_space c = true ->
  Py.lower d = ".com" \/ Py.lower d = ".in" ->
  word_after rest = false ->
  is_Some (rmatch TGBot.LINK_PATTERN 0 prev (String c d +:+ rest)
             (fun _ _ _ => Some tt)).
Proof.
  intros Hc H Hrest. rewrite app_cons_s. destruct H as [H|H].
  - alternative 4.
    now apply (ending_matches_gen "com" c d rest prev).
  - alternative 5.
    now apply (ending_matches_gen "in" c d rest prev).
Qed.

(** What the polling variant's classifier is sure to flag, wherever it
    stands in the text and in whatever letter case it is written: the
    markers [http://], [https://], [www.], [t.me/] and [telegram.me/]; any
    run that ends in [.com] or [.in] with a character other than a blank
    before the dot and no letter, digit or underscore after the ending; and
    each of the banned words. *)
Theorem polling_classifier_flags (pre m post : string) :
  Py.lower m ∈ ["http://"; "https://"; "www."; "t.me/"; "telegram.me/"]
  \/ (exists c d,
        m = String c d /\ TGBot.not_space c = true
        /\ Py.lower d ∈ [".com"; ".in"] /\ word_after post = false)
  \/ Py.lower m ∈ TGBot.BANNED_WORDS ->
  TGBot.contains_link_or_banned (pre +:+ m +:+ post) = true.
Proof.
  intros [H|[(c & d & -> & Hc & Hd & Hpost)|H]].
  - assert (m <> "") as Hne.
    { intros ->. cbn in H. rewrite !elem_of_cons, elem_of_nil in H.
      intuition discriminate. }
    apply flagged_by_pattern; [now apply app_not_empty|].
    apply found. intros prev.
    rewrite !elem_of_cons, elem_of_nil in H.
    destruct H as [H|[H|[H|[H|[H|[]]]]]].
    + apply scheme_matches. now left.
    + apply scheme_matches. now right.
    + apply host_matches. now left.
    + apply host_matches. right. now left.
    + apply host_matches. right. now right.
  - apply flagged_by_pattern; [now apply app_not_empty|].
    apply found. intros prev. apply ending_matches; [exact Hc| |exact Hpost].
    rewrite !elem_of_cons, elem_of_nil in Hd. intuition.
  - assert (m <> "") as Hne.
    { intros ->. cbn in H. unfold TGBot.BANNED_WORDS in H.
      rewrite !elem_of_cons, elem_of_nil in H. intuition discriminate. }
    pose proof (app_not_empty pre m post Hne) as Hne'.
    unfold TGBot.contains_link_or_banned.
    destruct (pre +:+ m +:+ post) as [|a t] eqn:Ht; [congruence|].
    cbn [Py.falsy]. destruct (search _ _); [reflexivity|].
    cbv zeta. apply existsb_exists. exists (Py.lower m).
    split; [now apply list_elem_of_In|].
    apply contains_spec. exists (Py.lower pre), (Py.lower post).
    rewrite <- Ht. now rewrite !lower_app.
Qed.

Lemma polling_classifier_flags_witness :
  TGBot.contains_link_or_banned ("see " +:+ "HTTPS://" +:+ "x.org") = true.
Proof.
  apply (polling_classifier_flags "see " "HTTPS://" "x.org").
  left. rewrite !elem_of_cons. right. now left.
Defined.

End PollingClassifier.

(** ** The moderation handler of the polling variant *)

Section PollingHandler.


Lemma persist1_fails (E : Env) (w : World) :
  disk_write E (trace w) <> Written ->
  exists w', TGBot.persist E w = Raised OSError w'
             /\ data w' = data w /\ calls (trace w') = calls (trace w).
Proof.
  intros Hw. pose proof (persist1_calls E w) as Hc.
  unfold TGBot.persist, TGBot.save_data in *.
  destruct (disk_write E (trace w)); [congruence| |];
    (eexists; split; [reflexivity|]; split; [reflexivity | exact Hc]).
Qed.

(** What [ensure_chat_user] leaves in memory, written or not. *)
Lemma ensure_chat_user_memory (E : Env) (chat : Z) (user : User) (w : World) :
  let w' := world_of (TGBot.ensure_chat_user E chat (user_id user) user w) in
  (exists info,
      dict_get (Py.str (user_id user)) (users (data w')) = Some info
      /\ mem chat (chats info) = true)
  /\ warnings (data w') = warnings (data w)
  /\ banned (data w') = banned (data w)
  /\ calls (trace w') = calls (trace w).
Proof.
  intros w'. subst w'. unfold TGBot.ensure_chat_user.
  set (uid := Py.str (user_id user)).
  destruct (dict_get uid (users (data w))) as [i|] eqn:Hi.
  - rewrite Hi. destruct (mem chat (chats i)) eqn:Hm.
    + cbn [world_of]. repeat split; eauto.
    + rewrite persist1_data, persist1_calls. cbn [data with_data with_users users
        warnings banned trace].
      repeat split. eexists. rewrite dict_get_set_eq. split; [reflexivity|].
      apply mem_snoc.
  - cbn [data with_data with_users users]. rewrite dict_get_set_eq.
    cbn [chats]. change (mem chat []) with false. cbn iota.
    rewrite persist1_data, persist1_calls.
    cbn [data with_data with_users users warnings banned trace].
    repeat split. eexists. rewrite dict_get_set_eq. split; [reflexivity|].
    apply mem_snoc.
Qed.

(** A sender who is new to the chat is written to the file before the
    message is looked at.  When that write fails, the polling variant's
    handler raises there: the sender is on the roster in memory, and
    nothing was asked of the gateway, so a message with a link stays where
    it is and earns no warning. *)
Theorem polling_handler_stops_on_failed_write
    (E : Env) (w : World) (user : User) (chat : Chat) (msg : Message) :
  disk_write E (trace w) <> Written ->
  (forall info,
      dict_get (Py.str (user_id user)) (users (data w)) = Some info ->
      mem (chat_id chat) (chats info) = false) ->
  exists w',
    TGBot.message_handler E (incoming user chat msg) w = Raised OSError w'
    /\ calls (trace w') = calls (trace w)
    /\ warnings (data w') = warnings (data w)
    /\ banned (data w') = banned (data w)
    /\ exists info,
         dict_get (Py.str (user_id user)) (users (data w')) = Some info
         /\ mem (chat_id chat) (chats info) = true.
Proof.
  intros Hw Hnew.
  destruct (ensure_chat_user_memory E (chat_id chat) user w)
    as (Hi & Hwn & Hb & Hc).
  unfold TGBot.message_handler.
  cbn [incoming effective_message effective_user effective_chat].
  assert (exists w', TGBot.ensure_chat_user E (chat_id chat) (user_id user) user w
                     = Raised OSError w') as [w' He].
  { unfold TGBot.ensure_chat_user.
    set (uid := Py.str (user_id user)).
    destruct (dict_get uid (users (data w))) as [i|] eqn:Hget.
    - rewrite Hget, (Hnew i Hget).
      match goal with |- context [TGBot.persist E ?x] =>
        destruct (persist1_fails E x Hw) as (w' & -> & _) end.
      eauto.
    - cbn [data with_data with_users users]. rewrite dict_get_set_eq.
      cbn [chats]. change (mem (chat_id chat) []) with false. cbn iota.
      match goal with |- context [TGBot.persist E ?x] =>
        destruct (persist1_fails E x Hw) as (w' & -> & _) end.
      eauto. }
  rewrite He in *. cbn [bind world_of] in *. exists w'. now repeat split.
Qed.

Lemma polling_handler_stops_on_failed_write_witness :
  exists w',
    TGBot.message_handler env_disk_full (incoming bob a_group (link_message 1)) fresh1
    = Raised OSError w'
    /\ calls (trace w') = calls (trace fresh1).
Proof.
  destruct (polling_handler_stops_on_failed_write env_disk_full fresh1 bob a_group
              (link_message 1)) as (w' & H1 & H2 & _);
    [discriminate | intros info; discriminate |].
  now exists w'.
Defined.






End PollingHandler.

(** ** The ban ledger under the commands of the polling variant *)

Section PollingLedger.

Lemma ban1_memory (E : Env) (chat user : Z) (w : World) :
  TGBot.is_user_banned
    (data (world_of (TGBot.ban_user_record E chat user w))) chat user = true.
Proof.
  unfold TGBot.ban_user_record, TGBot.is_user_banned.
  set (l := default [] (banned (data w) !! Py.str chat)).
  destruct (mem user l) eqn:Hm.
  - cbn [world_of data with_data with_banned banned].
    now rewrite lookup_insert_eq.
  - rewrite persist1_data. cbn [data with_data with_banned banned].
    rewrite lookup_insert_eq. cbn [default from_option]. unfold id.
    apply mem_snoc.
Qed.

Lemma reply1_data (E : Env) (chat : Z) (body : Body) (w : World) :
  data (world_of (TGBot.reply E chat body w)) = data w.
Proof. unfold TGBot.reply, call, request. now destruct (gateway E _ _). Qed.

Lemma reply_or_report_data (E : Env) (chat : Z) (body : Body) (w : World) :
  data (world_of (TGBot.reply_or_report E chat body w)) = data w.
Proof.
  unfold TGBot.reply_or_report, call, request. cbn [fst snd].
  destruct (gateway E _ _); [reflexivity|]. now rewrite reply1_data.
Qed.

(** In the polling variant the ledger follows the gateway under [/ban] and
    [/unban]: a ban the gateway accepted is in the ledger afterwards (in
    memory even when the write failed), an unban it accepted takes the user
    out of a ledger free of duplicates, and a request it refused leaves the
    store as it was. *)
Theorem polling_ledger_follows_gateway
    (E : Env) (c : Command) (w : World) (t : Z) :
  TGBot.is_admin (user_id (cmd_user c)) = true ->
  let chat := chat_id (cmd_chat c) in
  (TGBot.ban_target c = Some t ->
   (gateway E (trace w) (BanChatMember chat t) = true ->
    TGBot.is_user_banned (data (world_of (TGBot.cmd_ban E c w))) chat t = true)
   /\ (gateway E (trace w) (BanChatMember chat t) = false ->
       data (world_of (TGBot.cmd_ban E c w)) = data w))
  /\ (forall a rest,
        cmd_args c = a :: rest -> Py.isdigit a = true -> Py.int a = Some t ->
        (gateway E (trace w) (UnbanChatMember chat t) = true ->
         NoDup (default [] (banned (data w) !! Py.str chat)) ->
         TGBot.is_user_banned (data (world_of (TGBot.cmd_unban E c w))) chat t
         = false)
        /\ (gateway E (trace w) (UnbanChatMember chat t) = false ->
            data (world_of (TGBot.cmd_unban E c w)) = data w)).
Proof.
  intros Ha chat. split.
  - intros Ht. unfold TGBot.cmd_ban. rewrite Ha, Ht. cbn [negb]. fold chat.
    split; intros Hg; unfold call at 1; unfold request; rewrite Hg.
    + set (w1 := with_trace _ w).
      pose proof (ban1_memory E chat t w1) as Hb.
      destruct (TGBot.ban_user_record E chat t w1) as [[] w2|e w2];
        cbn [world_of] in Hb; unfold TGBot.is_user_banned in *.
      * now rewrite reply_or_report_data.
      * now rewrite reply1_data.
    + now rewrite reply1_data.
  - intros a rest Hargs Hd Hint. unfold TGBot.cmd_unban.
    rewrite Ha, Hargs, Hd, Hint. cbn [negb]. fold chat. split.
    + intros Hg Hnd. unfold call at 1. unfold request. rewrite Hg.
      set (w1 := with_trace _ w).
      pose proof (unban1_clears E chat t w1 Hnd) as Hb.
      destruct (TGBot.unban_user_record E chat t w1) as [[] w2|e w2];
        cbn [world_of] in Hb; unfold TGBot.is_user_banned in *.
      * unfold call, request.
        destruct (gateway E (trace w2) (ReplyText chat UserUnbanned));
          [exact Hb|]. now rewrite reply1_data.
      * now rewrite reply1_data.
    + intros Hg. unfold call at 1. unfold request. rewrite Hg.
      now rewrite reply1_data.
Qed.

Lemma polling_ledger_follows_gateway_witness :
  TGBot.is_user_banned
    (data (world_of (TGBot.cmd_unban env_ok (command admin1 ["42"]) ledger_world)))
    (-1001) 42 = false.
Proof.
  destruct (polling_ledger_follows_gateway env_ok (command admin1 ["42"])
              ledger_world 42 eq_refl) as (_ & H).
  destruct (H "42" [] eq_refl eq_refl eq_refl) as (Hu & _).
  apply Hu; [reflexivity | compute_done].
Defined.

End PollingLedger.

(** * The threshold, in both variants *)

Section ThresholdFacts.

Lemma ban_requests_calls chat user tr tr' l :
  calls tr' = calls tr ++ l ->
  ban_requests chat user tr'
  = (ban_requests chat user tr
     + length (List.filter (is_ban_request chat user) l))%nat.
Proof.
  unfold ban_requests. intros ->. now rewrite List.filter_app, length_app.
Qed.






End ThresholdFacts.

(** * The link classifier, in both variants *)

Section ClassifierVariants.
Import Re Classifier2.


End ClassifierVariants.
